(** * Stock quote service and client: a shallow embedding

    The development follows the two source files of the repository:
    - [server.py]: the FastAPI service with its [/stock] endpoint
      ([get_stock_data], [get_stock_info]);
    - [client.py]: the command-line client ([StockClient],
      [format_currency], [create_stock_table], [watch], [analyze]).

    Python values are embedded as the inductive [pyval]; Python [str] is a
    byte string ([string]); a Python [int] is an integer of any size ([Z]);
    a Python [float] is an IEEE-754 binary64 value ([spec_float] at
    precision 53), infinities and NaN included, with the operations of the
    standard ([SFsub], [SFmul], [SFdiv], rounding to nearest, ties to
    even). Exceptions are values of an error type, and code that performs
    effects runs in a small state-and-exception monad [prog]. *)

From Stdlib Require Import String Ascii ZArith QArith Qabs List Lia Bool DecimalString.
From Stdlib Require Import Floats.SpecFloat.
From stdpp Require Import gmap strings list.

Local Open Scope string_scope.
Local Open Scope list_scope.
Local Open Scope Z_scope.

(** ** Results and the state-and-exception monad *)

Inductive result (E A : Type) : Type :=
| Ok (a : A)
| Raised (e : E).
Arguments Ok {E A} a.
Arguments Raised {E A} e.

Definition prog (St E A : Type) : Type := St -> result E A * St.

Definition ret {St E A} (a : A) : prog St E A := fun st => (Ok a, st).

Definition raise {St E A} (e : E) : prog St E A := fun st => (Raised e, st).

Definition bind {St E A B} (c : prog St E A) (k : A -> prog St E B) : prog St E B :=
  fun st =>
    match c st with
    | (Ok a, st') => k a st'
    | (Raised e, st') => (Raised e, st')
    end.

(** [try: c except e: h e] *)
Definition try_except {St E A} (c : prog St E A) (h : E -> prog St E A) : prog St E A :=
  fun st =>
    match c st with
    | (Ok a, st') => (Ok a, st')
    | (Raised e, st') => h e st'
    end.

(** [try: c finally: f], the shape of a [with] block: [f] runs on both exits
    and the outcome of [c] is kept. *)
Definition try_finally {St E A} (c : prog St E A) (f : St -> St) : prog St E A :=
  fun st => let '(r, st') := c st in (r, f st').

Definition modify {St E} (f : St -> St) : prog St E unit := fun st => (Ok tt, f st).

Definition lift {St E A} (r : result E A) : prog St E A := fun st => (r, st).

Declare Scope prog_scope.
Delimit Scope prog_scope with prog.
Notation "x <- c1 ;; c2" := (bind c1 (fun x => c2))
  (at level 100, c1 at next level, right associativity) : prog_scope.
Notation "c1 ;; c2" := (bind c1 (fun _ => c2))
  (at level 100, right associativity) : prog_scope.
Local Open Scope prog_scope.

(** ** binary64 *)

(** [float(z)] before the range check: the integer rounded to the nearest
    binary64, an infinity when it is out of range. *)
Definition b64_of_Z (z : Z) : spec_float := binary_normalize 53 1024 z 0 false.

(** An integer as an exact (not normalized) binary value. *)
Definition SF_of_Z (z : Z) : spec_float :=
  match z with
  | 0 => S754_zero false
  | Z.pos p => S754_finite false p 0
  | Z.neg p => S754_finite true p 0
  end.

Definition b64_sub : spec_float -> spec_float -> spec_float := SFsub 53 1024.
Definition b64_mul : spec_float -> spec_float -> spec_float := SFmul 53 1024.
Definition b64_div : spec_float -> spec_float -> spec_float := SFdiv 53 1024.

(** The binary64 nearest to a rational: how a decimal literal such as
    [12.5] is read. *)
Definition b64_of_Q (q : Q) : spec_float :=
  b64_div (SF_of_Z (Qnum q)) (SF_of_Z (Z.pos (Qden q))).

Definition is_zero (f : spec_float) : bool :=
  match f with
  | S754_zero _ => true
  | _ => false
  end.

Definition is_finite (f : spec_float) : bool :=
  match f with
  | S754_zero _ | S754_finite _ _ _ => true
  | _ => false
  end.

(** The exact value of a finite float. *)
Definition float_value (f : spec_float) : Q :=
  match f with
  | S754_finite s m e =>
      let n := if s then Z.neg m else Z.pos m in
      match e with
      | Z.neg k => n # (2 ^ k)
      | _ => inject_Z (n * 2 ^ e)
      end
  | _ => 0
  end.

(** ** Python values *)

#[warnings="-register-all"]
Inductive pyval : Type :=
| PNone
| PBool (b : bool)
| PInt (z : Z)
| PFloat (f : spec_float)
| PStr (s : string)
| PDict (d : gmap string pyval).

(** [bool(v)]: the truth value Python gives to [v] in a condition. *)
Definition truthy (v : pyval) : bool :=
  match v with
  | PNone => false
  | PBool b => b
  | PInt z => negb (z =? 0)
  | PFloat f => negb (is_zero f)
  | PStr s => negb (String.eqb s "")
  | PDict d => negb (bool_decide (d = ∅))
  end.

(** [type(v).__name__] *)
Definition type_name (v : pyval) : string :=
  match v with
  | PNone => "NoneType"
  | PBool _ => "bool"
  | PInt _ => "int"
  | PFloat _ => "float"
  | PStr _ => "str"
  | PDict _ => "dict"
  end.

(** [d.get(k)] and [d.get(k, default)] on a dict *)
Definition dict_get (d : gmap string pyval) (k : string) : pyval :=
  match d !! k with
  | Some v => v
  | None => PNone
  end.

Definition dict_get_default (d : gmap string pyval) (k : string) (dflt : pyval) : pyval :=
  match d !! k with
  | Some v => v
  | None => dflt
  end.

(** ** Strings *)

(** [s.endswith(suf)] *)
Definition endswith (s suf : string) : bool :=
  let n := String.length s in
  let m := String.length suf in
  (m <=? n)%nat && String.eqb (substring (n - m) m s) suf.

(** [needle in hay] *)
Fixpoint contains (needle hay : string) : bool :=
  String.prefix needle hay ||
  match hay with
  | EmptyString => false
  | String _ hay' => contains needle hay'
  end.

Definition newline : string := String (ascii_of_nat 10) "".

(** [str(z)] for an integer *)
Definition str_of_Z (z : Z) : string := NilZero.string_of_int (Z.to_int z).

(** ** The quote service ([server.py]) *)

Module Server.

(** What the handlers can catch: a generic exception with its [str(e)], or
    FastAPI's [HTTPException]. *)
Inductive exc : Type :=
| Exception (msg : string)
| HTTPException (status_code : Z) (detail : string).

(** [class StockResponse(BaseModel)] *)
Record StockResponse : Type := { symbol : string; data : gmap string pyval }.

(** The observable effects of a request: the symbols looked up at the
    provider and the lines written by [logger.error]. *)
Record effects : Type := { lookups : list string; log : list string }.

Definition no_effects : effects := {| lookups := []; log := [] |}.

Definition log_error (line : string) : prog effects exc unit :=
  modify (fun st => {| lookups := lookups st; log := log st ++ [line] |}).

(** [str(e)] of Starlette's [HTTPException], which FastAPI's class inherits:
    [f"{self.status_code}: {self.detail}"]. *)
Definition starlette_str (status_code : Z) (detail : string) : string :=
  str_of_Z status_code +:+ ": " +:+ detail.

Section Service.

(** [str(e)] for an [HTTPException] is library code; the service is
    modelled for any such rendering. *)
Variable HTTPException_str : Z -> string -> string.

(** [yf.Ticker(symbol).info]: the provider either raises (with the text
    of the exception) or returns a value, normally a dict. *)
Variable Ticker_info : string -> result string pyval.

Definition str (e : exc) : string :=
  match e with
  | Exception msg => msg
  | HTTPException c d => HTTPException_str c d
  end.

Definition query_provider (symbol : string) : prog effects exc pyval :=
  fun st =>
    let st' := {| lookups := lookups st ++ [symbol]; log := log st |} in
    match Ticker_info symbol with
    | Ok info => (Ok info, st')
    | Raised msg => (Raised (Exception msg), st')
    end.

(** The dict literal of [get_stock_data]; [info.get] on anything but a
    dict raises [AttributeError]. *)
Definition normalized_quote (info : pyval) : result exc (gmap string pyval) :=
  match info with
  | PDict d =>
      Ok (<["current_price" := dict_get d "currentPrice"]>
         (<["volume" := dict_get d "volume"]>
         (<["market_cap" := dict_get d "marketCap"]>
         (<["fifty_day_average" := dict_get d "fiftyDayAverage"]>
         (<["name" := dict_get d "longName"]>
         (<["currency" := dict_get_default d "currency" (PStr "CAD")]> ∅))))))
  | _ =>
      Raised (Exception ("'" +:+ type_name info +:+ "' object has no attribute 'get'"))
  end.

(** The symbol sent to the provider: [.TO] is appended unless present. *)
Definition provider_symbol (symbol : string) : string :=
  if negb (endswith symbol ".TO") then symbol +:+ ".TO" else symbol.

(** [get_stock_data]. The reassignment of [symbol] is the first
    statement of the [try] block and cannot raise, so the handler sees
    the suffixed symbol. *)
Definition get_stock_data (symbol : string) : prog effects exc (gmap string pyval) :=
  let symbol := provider_symbol symbol in
  try_except
    (info <- query_provider symbol ;;
     lift (normalized_quote info))
    (fun e =>
       log_error ("Error fetching data for " +:+ symbol +:+ ": " +:+ str e) ;;
       raise (HTTPException 500 ("Error fetching stock data: " +:+ str e))).

(** [get_stock_info], the handler of [POST /stock]. *)
Definition get_stock_info (request_symbol : string) : prog effects exc StockResponse :=
  try_except
    (data <- get_stock_data request_symbol ;;
     ret {| symbol := request_symbol; data := data |})
    (fun e =>
       log_error ("Error processing request for " +:+ request_symbol +:+ ": " +:+ str e) ;;
       raise (HTTPException 500 (str e))).

(** What FastAPI sends back: the status and the JSON body. An
    [HTTPException] becomes its status with [{"detail": ...}]; any other
    exception escaping a handler is a plain 500. *)
Definition http_reply (r : result exc StockResponse) : Z * pyval :=
  match r with
  | Ok resp =>
      (200, PDict (<["symbol" := PStr (symbol resp)]>
                  (<["data" := PDict (data resp)]> ∅)))
  | Raised (HTTPException c d) => (c, PDict (<["detail" := PStr d]> ∅))
  | Raised (Exception _) => (500, PStr "Internal Server Error")
  end.

Definition post_stock (request_symbol : string) : Z * pyval :=
  http_reply (fst (get_stock_info request_symbol no_effects)).

End Service.

End Server.

(** ** Number formatting (Python's format mini-language) *)

Definition is_digit (c : ascii) : bool :=
  let n := nat_of_ascii c in (48 <=? n)%nat && (n <=? 57)%nat.

(** The decimal digits of a natural number, most significant first. *)
Definition digits (n : N) : list ascii :=
  list_ascii_of_string (NilZero.string_of_uint (N.to_uint n)).

(** The [,] option: a comma after every third digit, counted from the
    right. [group_rev] works on the digits least significant first. *)
Fixpoint group_rev (ds : list ascii) : list ascii :=
  match ds with
  | d1 :: d2 :: d3 :: ((_ :: _) as rest) =>
      d1 :: d2 :: d3 :: ","%char :: group_rev rest
  | _ => ds
  end.

Definition grouped (ds : list ascii) : list ascii := rev (group_rev (rev ds)).

(** Rounding a non-negative rational to the nearest integer, ties to even. *)
Definition round_half_even (q : Q) : Z :=
  let n := Qnum q in
  let d := Z.pos (Qden q) in
  let f := n / d in
  let r := n mod d in
  if 2 * r <? d then f
  else if d <? 2 * r then f + 1
  else if Z.even f then f else f + 1.

Definition sign_prefix (negative : bool) : list ascii :=
  if negative then ["-"%char] else [].

(** Two decimals of an exact value: the sign, the integer part (grouped
    with [grouping]), a point and two decimals, correctly rounded. *)
Definition format_2f (grouping : bool) (q : Q) : string :=
  let cents := round_half_even (Qabs q * 100) in
  let ip := digits (Z.to_N (cents / 100)) in
  let fp := Z.to_N (cents mod 100) in
  string_of_list_ascii
    (sign_prefix (Qnum q <? 0) ++
     (if grouping then grouped ip else ip) ++
     "."%char :: digits (fp / 10) ++ digits (fp mod 10)).

(** [format(f, '.2f')] and, with [grouping], [format(f, ',.2f')] for a
    float: the exact value of a finite float, correctly rounded to two
    decimals; a zero keeps its sign; [inf] and [nan] are spelled out. *)
Definition format_float (grouping : bool) (f : spec_float) : string :=
  match f with
  | S754_nan => "nan"
  | S754_infinity s => string_of_list_ascii (sign_prefix s) +:+ "inf"
  | S754_zero s => string_of_list_ascii (sign_prefix s) +:+ "0.00"
  | S754_finite _ _ _ => format_2f grouping (float_value f)
  end.

(** [format(z, ',')] for an integer *)
Definition format_int_grouped (z : Z) : string :=
  string_of_list_ascii (sign_prefix (z <? 0) ++ grouped (digits (Z.abs_N z))).

(** ** The client ([client.py]) *)

Module Client.

Inductive exn : Type :=
| KeyError (key : string)
| TypeError
| ValueError
| AttributeError
| ZeroDivisionError
| OverflowError
| NotRenderableError
| MarkupError
| OSError
| ClientError (msg : string)
| KeyboardInterrupt
| CancelledError.

(** [except Exception] catches neither [KeyboardInterrupt] nor
    [asyncio.CancelledError]: both derive from [BaseException] only. *)
Definition is_Exception (e : exn) : bool :=
  match e with
  | KeyboardInterrupt | CancelledError => false
  | _ => true
  end.

Definition rbind {A B} (r : result exn A) (k : A -> result exn B) : result exn B :=
  match r with
  | Ok a => k a
  | Raised e => Raised e
  end.

Notation "x <~ c1 ;; c2" := (rbind c1 (fun x => c2))
  (at level 100, c1 at next level, right associativity).

(** [v[k]] *)
Definition subscript (v : pyval) (k : string) : result exn pyval :=
  match v with
  | PDict d =>
      match d !! k with
      | Some x => Ok x
      | None => Raised (KeyError k)
      end
  | _ => Raised TypeError
  end.

(** [v.get(k)] and [v.get(k, default)] *)
Definition py_get (v : pyval) (k : string) : result exn pyval :=
  match v with
  | PDict d => Ok (dict_get d k)
  | _ => Raised AttributeError
  end.

Definition py_get_default (v : pyval) (k : string) (dflt : pyval) : result exn pyval :=
  match v with
  | PDict d => Ok (dict_get_default d k dflt)
  | _ => Raised AttributeError
  end.

(** The value of an [int] or [bool] operand. *)
Definition int_value (v : pyval) : option Z :=
  match v with
  | PBool b => Some (Z.b2z b)
  | PInt z => Some z
  | _ => None
  end.

(** An [int], [bool] or [float]: what the arithmetic operators take. *)
Definition is_numeric (v : pyval) : bool :=
  match v with
  | PBool _ | PInt _ | PFloat _ => true
  | _ => false
  end.

(** [float(z)] for an integer: [OverflowError] when [z] is too large for
    a float. *)
Definition float_of_int (z : Z) : result exn spec_float :=
  let f := b64_of_Z z in
  if is_finite f then Ok f else Raised OverflowError.

(** The operand of a float operation: a float as it is, an integer
    converted. *)
Definition to_float (v : pyval) : result exn spec_float :=
  match v with
  | PFloat f => Ok f
  | PBool b => float_of_int (Z.b2z b)
  | PInt z => float_of_int z
  | _ => Raised TypeError
  end.

(** [v == 0] for a number; the float made from an integer is zero exactly
    when the integer is. *)
Definition is_zero_number (v : pyval) : bool :=
  match v with
  | PBool b => negb b
  | PInt z => z =? 0
  | PFloat f => is_zero f
  | _ => false
  end.

(** [a - b]: an exact [int] for two integers; as soon as one operand is a
    float, both are taken as floats and the difference is rounded;
    [TypeError] for anything else. *)
Definition py_sub (a b : pyval) : result exn pyval :=
  match int_value a, int_value b with
  | Some x, Some y => Ok (PInt (x - y))
  | _, _ =>
      if is_numeric a && is_numeric b then
        fa <~ to_float a ;;
        fb <~ to_float b ;;
        Ok (PFloat (b64_sub fa fb))
      else Raised TypeError
  end.

(** [a / b]: true division, always a float. For two integers it is the
    correctly rounded quotient, [OverflowError] when that is too large for
    a float; otherwise both operands are taken as floats. A zero divisor
    raises [ZeroDivisionError]. *)
Definition py_truediv (a b : pyval) : result exn spec_float :=
  match int_value a, int_value b with
  | Some x, Some y =>
      if y =? 0 then Raised ZeroDivisionError
      else
        let q := b64_div (SF_of_Z x) (SF_of_Z y) in
        if is_finite q then Ok q else Raised OverflowError
  | _, _ =>
      if is_numeric a && is_numeric b then
        fa <~ to_float a ;;
        fb <~ to_float b ;;
        if is_zero_number b then Raised ZeroDivisionError
        else Ok (b64_div fa fb)
      else Raised TypeError
  end.

Section Formatting.

(** [format(x, ',')] for a float prints its shortest [repr] with
    grouping; it is not modelled and stays a parameter. *)
Variable float_grouped_repr : spec_float -> string.

(** [f"{v:,.2f}"]: an integer is converted to a float first. *)
Definition format_grouped_2f (v : pyval) : result exn string :=
  match v with
  | PStr _ => Raised ValueError
  | _ =>
      f <~ to_float v ;;
      Ok (format_float true f)
  end.

(** [f"{v:,}"] *)
Definition format_grouped (v : pyval) : result exn string :=
  match v with
  | PBool b => Ok (format_int_grouped (Z.b2z b))
  | PInt z => Ok (format_int_grouped z)
  | PFloat f => Ok (float_grouped_repr f)
  | PStr _ => Raised ValueError
  | _ => Raised TypeError
  end.

(** [format_currency] *)
Definition format_currency (value : pyval) : result exn string :=
  if truthy value then
    s <~ format_grouped_2f value ;;
    Ok ("$" +:+ s)
  else Ok "N/A".

(** [rich.table.Table]: the header style, the columns and the rows. *)
Record Table : Type :=
  { header_style : string; columns : list string; rows : list (list string) }.

Definition add_row (t : Table) (cells : list string) : Table :=
  {| header_style := header_style t; columns := columns t;
     rows := rows t ++ [cells] |}.

(** What [Table.add_row] accepts as a cell: a string, or [None] for an
    empty cell; anything else raises [NotRenderableError]. *)
Definition renderable (v : pyval) : result exn string :=
  match v with
  | PStr s => Ok s
  | PNone => Ok ""
  | _ => Raised NotRenderableError
  end.

(** The volume cell: [f"{v:,}" if v else "N/A"] *)
Definition volume_cell (vol : pyval) : result exn string :=
  if truthy vol then format_grouped vol else Ok "N/A".

(** The body of the [for stock in data] loop of [create_stock_table]. *)
Definition stock_row (stock : pyval) : result exn (list string) :=
  symbol <~ subscript stock "symbol" ;;
  stock_data <~ subscript stock "data" ;;
  cp <~ py_get stock_data "current_price" ;;
  c_price <~ format_currency cp ;;
  vol <~ py_get stock_data "volume" ;;
  c_volume <~ volume_cell vol ;;
  mc <~ py_get stock_data "market_cap" ;;
  c_cap <~ format_currency mc ;;
  avg <~ py_get stock_data "fifty_day_average" ;;
  c_avg <~ format_currency avg ;;
  c_symbol <~ renderable symbol ;;
  Ok [c_symbol; c_price; c_volume; c_cap; c_avg].

Fixpoint add_stock_rows (t : Table) (data : list pyval) : result exn Table :=
  match data with
  | [] => Ok t
  | stock :: data' =>
      cells <~ stock_row stock ;;
      add_stock_rows (add_row t cells) data'
  end.

(** [create_stock_table] *)
Definition create_stock_table (data : list pyval) : result exn Table :=
  add_stock_rows
    {| header_style := "bold magenta";
       columns := ["Symbol"; "Current Price"; "Volume"; "Market Cap"; "50 Day Avg"];
       rows := [] |}
    data.

(** The two trend marks, byte for byte as the literals of [client.py]. *)
Definition trend_up : string :=
  string_of_list_ascii (map ascii_of_nat [195; 176; 197; 184; 226; 128; 157; 194; 186]%nat).

Definition trend_down : string :=
  string_of_list_ascii (map ascii_of_nat [195; 176; 197; 184; 226; 128; 157; 194; 187]%nat).

(** The row added for a deviation: [trend] is chosen by [price_diff > 0]
    (false for a NaN) and the cell is [f"{trend} {abs(price_diff):.2f}%"]. *)
Definition derived_row (price_diff : spec_float) : list string :=
  let trend := if SFltb (S754_zero false) price_diff then trend_up else trend_down in
  ["Price vs 50-day Average";
   trend +:+ " " +:+ format_float false (SFabs price_diff) +:+ "%"].

(** The [if current_price and fifty_day_avg] block of [analyze_stock]:
    the rows it adds to the table. *)
Definition derived_rows (current_price fifty_day_avg : pyval) : result exn (list (list string)) :=
  if truthy current_price && truthy fifty_day_avg then
    diff <~ py_sub current_price fifty_day_avg ;;
    ratio <~ py_truediv diff fifty_day_avg ;;
    let price_diff := b64_mul ratio (b64_of_Z 100) in
    Ok [derived_row price_diff]
  else Ok [].

(** The table built by [analyze_stock] from the decoded response. *)
Definition analysis_table (stock_data : pyval) : result exn Table :=
  data <~ subscript stock_data "data" ;;
  current_price <~ py_get_default data "current_price" (PInt 0) ;;
  fifty_day_avg <~ py_get_default data "fifty_day_average" (PInt 0) ;;
  derived <~ derived_rows current_price fifty_day_avg ;;
  c_price <~ format_currency current_price ;;
  c_avg <~ format_currency fifty_day_avg ;;
  mc <~ py_get data "market_cap" ;;
  c_cap <~ format_currency mc ;;
  Ok {| header_style := "bold blue";
        columns := ["Metric"; "Value"];
        rows := derived ++ [["Current Price"; c_price];
                            ["50 Day Average"; c_avg];
                            ["Market Cap"; c_cap]] |}.

End Formatting.

(** *** The world the client runs in *)

(** What happens to sessions and when the loop sleeps, in one timeline. *)
Inductive event : Type :=
| SessionOpened
| SessionClosed
| Slept (interval : Z).

Inductive console_item : Type :=
| Clear
| PrintText (text : string)
| PrintTable (table : Table)
| PrintError (context : string) (e : exn).

(** One line of the exported CSV: the columns [timestamp], [symbol],
    [price], [volume], [market_cap], [fifty_day_avg]. *)
Record csv_row : Type :=
  { timestamp : Z; row_symbol : pyval; price : pyval; volume : pyval;
    market_cap : pyval; fifty_day_avg : pyval }.

(** The outcome of a [to_csv]: the file is replaced, or the write fails
    with [OSError] and leaves the file as it was ([None]) or with whatever
    had been written by then. *)
Inductive write_outcome : Type :=
| WriteDone
| WriteFailed (left : option (list csv_row)).

(** What the client cannot decide: the wall clock, the answer to each
    request, the order in which the requests of a batch complete, whether
    [rich] accepts the markup of what is printed, and whether the disk
    takes a write. *)
Record env : Type :=
  { now : nat -> Z;
    (** the [i]-th reading of [datetime.now()], in microseconds *)
    post : nat -> string -> result exn pyval;
    (** the [i]-th [POST /stock] of the run: a transport failure, or the
        decoded JSON body (whatever the status) *)
    completion : nat -> list nat;
    (** the order in which the tasks of the [i]-th batch complete *)
    markup : console_item -> bool;
    (** whether [console.print] renders the item; it raises [MarkupError]
        when the text has a closing tag that matches no open tag, as a
        symbol, a path or a message put into the text may *)
    disk : nat -> string -> write_outcome
    (** the outcome of the [i]-th write of the run, to the given path *) }.

Record world : Type :=
  { clock_reads : nat;
    requests : list string;
    batches : nat;
    timeline : list event;
    console : list console_item;
    writes : nat;
    files : gmap string (list csv_row) }.

Definition is_session_event (ev : event) : bool :=
  match ev with
  | Slept _ => false
  | _ => true
  end.

(** The sessions opened and closed so far, in order. *)
Definition sessions (w : world) : list event :=
  List.filter is_session_event (timeline w).

(** The sleeps of the loop so far, in order. *)
Definition sleeps (w : world) : list Z :=
  omap (fun ev => match ev with Slept interval => Some interval | _ => None end)
       (timeline w).

Definition set_clock_reads (n : nat) (w : world) : world :=
  {| clock_reads := n; requests := requests w; batches := batches w;
     timeline := timeline w; console := console w; writes := writes w;
     files := files w |}.

Definition set_requests (l : list string) (w : world) : world :=
  {| clock_reads := clock_reads w; requests := l; batches := batches w;
     timeline := timeline w; console := console w; writes := writes w;
     files := files w |}.

Definition set_batches (n : nat) (w : world) : world :=
  {| clock_reads := clock_reads w; requests := requests w; batches := n;
     timeline := timeline w; console := console w; writes := writes w;
     files := files w |}.

Definition set_timeline (l : list event) (w : world) : world :=
  {| clock_reads := clock_reads w; requests := requests w; batches := batches w;
     timeline := l; console := console w; writes := writes w;
     files := files w |}.

Definition set_console (l : list console_item) (w : world) : world :=
  {| clock_reads := clock_reads w; requests := requests w; batches := batches w;
     timeline := timeline w; console := l; writes := writes w;
     files := files w |}.

Definition set_writes (n : nat) (w : world) : world :=
  {| clock_reads := clock_reads w; requests := requests w; batches := batches w;
     timeline := timeline w; console := console w; writes := n;
     files := files w |}.

Definition set_files (m : gmap string (list csv_row)) (w : world) : world :=
  {| clock_reads := clock_reads w; requests := requests w; batches := batches w;
     timeline := timeline w; console := console w; writes := writes w;
     files := m |}.

(** *** [asyncio.gather]

    The tasks are started in argument order; each result is stored at the
    index of its task when the task completes, in whatever order that
    happens; the first exception to occur is propagated. [order] lists the
    task indices in completion order: indices out of range are ignored and
    tasks it does not mention complete afterwards, so every list is a
    schedule and every permutation of the tasks is one. *)

Fixpoint gather_run {A} (outcomes : list (result exn A)) (order : list nat)
    (slots : list (option A)) : result exn (list (option A)) :=
  match order with
  | [] => Ok slots
  | i :: order' =>
      match outcomes !! i with
      | Some (Ok a) => gather_run outcomes order' (<[i := Some a]> slots)
      | Some (Raised e) => Raised e
      | None => gather_run outcomes order' slots
      end
  end.

Definition gather {A} (outcomes : list (result exn A)) (order : list nat) : result exn (list A) :=
  let n := length outcomes in
  slots <~ gather_run outcomes (order ++ seq 0 n) (replicate n None) ;;
  Ok (omap id slots).

(** [asyncio.run(main)]: an interrupt of the operator cancels the main
    task, which sees [CancelledError] where it is waiting; when the task
    ends cancelled, [run] raises [KeyboardInterrupt] in its place. *)
Definition asyncio_run {A} (main : prog world exn A) : prog world exn A :=
  fun w =>
    match main w with
    | (Raised CancelledError, w') => (Raised KeyboardInterrupt, w')
    | outcome => outcome
    end.

Section Run.

Variable float_grouped_repr : spec_float -> string.
Variable e : env.

(** [StockClient.__aenter__] and [__aexit__] around a block. *)
Definition with_client {A} (body : prog world exn A) : prog world exn A :=
  modify (fun w => set_timeline (timeline w ++ [SessionOpened]) w) ;;
  try_finally body (fun w => set_timeline (timeline w ++ [SessionClosed]) w).

(** [StockClient.get_stock_info] *)
Definition get_stock_info (symbol : string) : prog world exn pyval :=
  fun w =>
    (post e (length (requests w)) symbol,
     set_requests (requests w ++ [symbol]) w).

(** [StockClient.get_multiple_stocks]: one task per symbol, in the order
    of [symbols], handed to [gather]. *)
Definition get_multiple_stocks (symbols : list string) : prog world exn (list pyval) :=
  fun w =>
    let tasks := imap (fun j symbol => post e (length (requests w) + j) symbol) symbols in
    (gather tasks (completion e (batches w)),
     set_batches (S (batches w)) (set_requests (requests w ++ symbols) w)).

(** [console.clear()] *)
Definition console_clear : prog world exn unit :=
  modify (fun w => set_console (console w ++ [Clear]) w).

(** [console.print(item)]: the markup is parsed before anything is
    written, so an item that is refused prints nothing. *)
Definition console_print (item : console_item) : prog world exn unit :=
  fun w =>
    if markup e item
    then (Ok tt, set_console (console w ++ [item]) w)
    else (Raised MarkupError, w).

Definition datetime_now : prog world exn Z :=
  fun w => (Ok (now e (clock_reads w)), set_clock_reads (S (clock_reads w)) w).

(** [df.to_csv(path, index=False)]: the file is replaced, unless the write
    fails. *)
Definition to_csv (path : string) (df : list csv_row) : prog world exn unit :=
  fun w =>
    let w1 := set_writes (S (writes w)) w in
    match disk e (writes w) path with
    | WriteDone => (Ok tt, set_files (<[path := df]> (files w)) w1)
    | WriteFailed None => (Raised OSError, w1)
    | WriteFailed (Some partial) =>
        (Raised OSError, set_files (<[path := partial]> (files w)) w1)
    end.

(** [await asyncio.sleep(interval)] *)
Definition sleep (interval : Z) : prog world exn unit :=
  modify (fun w => set_timeline (timeline w ++ [Slept interval]) w).

(** The [for stock in stock_data] loop of the export and
    [pd.DataFrame(current_data)]: one row per stock, all with the
    timestamp of the cycle. *)
Definition snapshot_row (ts : Z) (stock : pyval) : result exn csv_row :=
  symbol <~ subscript stock "symbol" ;;
  d1 <~ subscript stock "data" ;;
  p <~ py_get d1 "current_price" ;;
  d2 <~ subscript stock "data" ;;
  v <~ py_get d2 "volume" ;;
  d3 <~ subscript stock "data" ;;
  m <~ py_get d3 "market_cap" ;;
  d4 <~ subscript stock "data" ;;
  a <~ py_get d4 "fifty_day_average" ;;
  Ok {| timestamp := ts; row_symbol := symbol; price := p; volume := v;
        market_cap := m; fifty_day_avg := a |}.

Fixpoint snapshot (ts : Z) (stock_data : list pyval) : result exn (list csv_row) :=
  match stock_data with
  | [] => Ok []
  | stock :: rest =>
      r <~ snapshot_row ts stock ;;
      rs <~ snapshot ts rest ;;
      Ok (r :: rs)
  end.

(** [if output:] for [output: str = typer.Option(None)] *)
Definition output_given (output : option string) : option string :=
  match output with
  | Some path => if String.eqb path "" then None else Some path
  | None => None
  end.

(** One iteration of the [while True] loop of [watch_stocks], up to the
    sleep: the whole [async with] block. [df_list] is the accumulator; the
    new one is returned. The [Progress] bar around the fetch only draws on
    the terminal and is left out. *)
Definition cycle (symbols : list string) (output : option string)
    (df_list : list (list csv_row)) : prog world exn (list (list csv_row)) :=
  with_client
    (stock_data <- get_multiple_stocks symbols ;;
     console_clear ;;
     table <- lift (create_stock_table float_grouped_repr stock_data) ;;
     console_print (PrintTable table) ;;
     match output_given output with
     | Some path =>
         ts <- datetime_now ;;
         df <- lift (snapshot ts stock_data) ;;
         let df_list := (df_list ++ [df])%list in
         to_csv path (concat df_list) ;;
         console_print (PrintText (newline +:+ "Data exported to " +:+ path)) ;;
         ret df_list
     | None => ret df_list
     end).

(** The loop never ends by itself: it runs until the operator interrupts
    it. [cycles] is the number of iterations begun before the interrupt,
    which arrives while the loop sleeps or fetches and cancels the task:
    the coroutine sees [CancelledError]. *)
Fixpoint watch_loop (cycles : nat) (symbols : list string) (interval : Z)
    (output : option string) (df_list : list (list csv_row)) : prog world exn unit :=
  match cycles with
  | O => raise CancelledError
  | S cycles' =>
      df_list <- cycle symbols output df_list ;;
      sleep interval ;;
      watch_loop cycles' symbols interval output df_list
  end.

(** [watch_stocks], the coroutine of the [watch] command: the two
    handlers around the loop; what neither catches leaves the coroutine. *)
Definition watch_stocks (cycles : nat) (symbols : list string) (interval : Z)
    (output : option string) : prog world exn unit :=
  try_except (watch_loop cycles symbols interval output [])
    (fun ex =>
       match ex with
       | KeyboardInterrupt =>
           console_print (PrintText (newline +:+ "[yellow]Stopping stock watch...[/yellow]"))
       | _ =>
           if is_Exception ex
           then console_print (PrintError "Error" ex)
           else raise ex
       end).

(** [watch]: [asyncio.run(watch_stocks())] *)
Definition watch (cycles : nat) (symbols : list string) (interval : Z)
    (output : option string) : prog world exn unit :=
  asyncio_run (watch_stocks cycles symbols interval output).

(** [analyze_stock], the coroutine of the [analyze] command. *)
Definition analyze_stock (symbol : string) : prog world exn unit :=
  with_client
    (try_except
       (stock_data <- get_stock_info symbol ;;
        console_print (PrintText (newline +:+ "[bold]Analysis for " +:+ symbol +:+ "[/bold]")) ;;
        table <- lift (analysis_table stock_data) ;;
        console_print (PrintTable table))
       (fun ex =>
          if is_Exception ex
          then console_print (PrintError ("Error analyzing " +:+ symbol) ex)
          else raise ex)).

(** [analyze]: [asyncio.run(analyze_stock())]. [days] is a parameter of
    the command; [analyze_stock] does not mention it. *)
Definition analyze (symbol : string) (days : Z) : prog world exn unit :=
  asyncio_run (analyze_stock symbol).

End Run.

(** *** The client talking to the service of [server.py] *)

(** Every request reaches the service and its reply is decoded: the body of
    the [i]-th reply is what [Server.post_stock] sends for the provider's
    state at that time. The body travels as JSON; encoding and decoding are
    taken to give the body back, as they do for the values JSON can
    carry. *)
Definition served (HTTPException_str : Z -> string -> string)
    (provider : nat -> string -> result string pyval) (i : nat) (symbol : string)
    : result exn pyval :=
  Ok (snd (Server.post_stock HTTPException_str (provider i) symbol)).

End Client.

(** * Vocabulary of the statements *)

(** ** The service *)

Module ServerSpec.
Import Server.

(** The text of the failure of a provider lookup, if it fails: the
    provider raised, or what it returned has no [get]. *)
Definition lookup_failure (answer : result string pyval) : option string :=
  match answer with
  | Raised msg => Some msg
  | Ok (PDict _) => None
  | Ok info => Some ("'" +:+ type_name info +:+ "' object has no attribute 'get'")
  end.

(** A provider that knows every symbol and reports a price of 12.5. *)
Definition steady_provider (symbol : string) : result string pyval :=
  Ok (PDict (<["currentPrice" := PFloat (b64_of_Q (25 # 2))]> ∅)).

(** A provider whose reply cannot be decoded. *)
Definition broken_provider (symbol : string) : result string pyval :=
  Raised "Expecting value: line 1 column 1 (char 0)".

End ServerSpec.

(** ** The client *)

Module ClientSpec.
Import Client.

(** The bodies the service sends for one batch of requests, the first of
    which is the [first]-th request of the run, in request order. *)
Definition batch_bodies (HTTPException_str : Z -> string -> string)
    (provider : nat -> string -> result string pyval)
    (first : nat) (symbols : list string) : list pyval :=
  imap (fun j symbol =>
          snd (Server.post_stock HTTPException_str (provider (first + j)%nat) symbol))
       symbols.

(** The client in front of the service, on a terminal that renders
    whatever is printed and a disk that takes every write: every request is
    answered by [Server.post_stock]; the clock and the scheduling stay
    free. *)
Definition served_env (HTTPException_str : Z -> string -> string)
    (provider : nat -> string -> result string pyval)
    (clock : nat -> Z) (schedule : nat -> list nat) : env :=
  {| now := clock; post := served HTTPException_str provider; completion := schedule;
     markup := fun _ => true; disk := fun _ _ => WriteDone |}.

(** An environment whose requests all reach the service. *)
Definition in_front_of (HTTPException_str : Z -> string -> string)
    (provider : nat -> string -> result string pyval) (e : env) : Prop :=
  forall i symbol, post e i symbol = served HTTPException_str provider i symbol.

Definition fresh_world : world :=
  {| clock_reads := 0; requests := []; batches := 0; timeline := [];
     console := []; writes := 0; files := ∅ |}.

(** A provider that answers every lookup with the same complete quote. *)
Definition demo_provider (i : nat) (symbol : string) : result string pyval :=
  Ok (PDict (<["currentPrice" := PFloat (b64_of_Q (1105 # 10))]>
            (<["volume" := PInt 1234567]>
            (<["marketCap" := PInt 2500000000]>
            (<["fiftyDayAverage" := PInt 100]> ∅))))).

(** A run in which the second request of each batch completes first and
    the clock advances by one second per reading. *)
Definition demo_env : env :=
  served_env Server.starlette_str demo_provider
    (fun i => 1700000000000000 + 1000000 * Z.of_nat i)
    (fun _ => [1; 0]%nat).

(** The same run on the night the clocks go back: the wall clock, which
    [datetime.now()] reads without a time zone, is read at 02:59:30 and, a
    minute later, at 02:00:30. *)
Definition autumn_env : env :=
  served_env Server.starlette_str demo_provider
    (fun i => if (i =? 0)%nat then 1698541170000000 else 1698537630000000)
    (fun _ => [1; 0]%nat).

(** The same run on a disk that refuses every write and leaves the files
    as they are. *)
Definition full_disk_env : env :=
  {| now := now demo_env; post := post demo_env; completion := completion demo_env;
     markup := fun _ => true;
     disk := fun _ _ => WriteFailed None |}.

(** The decoded body of a successful reply with the given [data]. *)
Definition quote_body (symbol : string) (data : gmap string pyval) : pyval :=
  PDict (<["symbol" := PStr symbol]> (<["data" := PDict data]> ∅)).

(** The quote of the scenario of the analysis: a price of 110 against a
    50-day average of 100, no market cap. *)
Definition quote_110_100 : gmap string pyval :=
  <["current_price" := PInt 110]> (<["fifty_day_average" := PInt 100]> ∅).

(** A quote whose price is known to be zero. *)
Definition quote_0_100 : gmap string pyval :=
  <["current_price" := PInt 0]> (<["fifty_day_average" := PInt 100]> ∅).

(** A reply to a request for [symbol] echoes it: its [symbol], if it has
    one, is that string. *)
Definition echoes (symbol : string) (stock : pyval) : Prop :=
  forall v, subscript stock "symbol" = Ok v -> v = PStr symbol.

(** The percentage deviation of [x] from [y], as binary64 arithmetic
    gives it: each of the three operations is rounded. *)
Definition percent_deviation (x y : spec_float) : spec_float :=
  b64_mul (b64_div (b64_sub x y) y) (b64_of_Z 100).

(** The same for two integers: the difference is exact, the quotient is
    rounded once. *)
Definition percent_deviation_int (x y : Z) : spec_float :=
  b64_mul (b64_div (SF_of_Z (x - y)) (SF_of_Z y)) (b64_of_Z 100).

(** The three rows every analysis table ends with. *)
Definition raw_rows (c_price c_avg c_cap : string) : list (list string) :=
  [["Current Price"; c_price]; ["50 Day Average"; c_avg]; ["Market Cap"; c_cap]].

(** The cycle of a watch as the timeline records it. *)
Definition completed_cycle (interval : Z) : list event :=
  [SessionOpened; SessionClosed; Slept interval].

Definition failed_cycle : list event := [SessionOpened; SessionClosed].

End ClientSpec.

(** ** Patterns of rendered cells *)

(** A thousands-grouped run of digits, read from the right: groups of
    exactly three digits, each preceded by a comma, and a leftmost group of
    one to three digits. The argument is the text reversed. *)
Fixpoint grouped_digits_rev (s : list ascii) : bool :=
  match s with
  | d1 :: d2 :: d3 :: c :: rest =>
      is_digit d1 && is_digit d2 && is_digit d3 && Ascii.eqb c "," &&
      grouped_digits_rev rest
  | _ => (1 <=? length s)%nat && forallb is_digit s
  end.

Definition strip_sign (s : list ascii) : list ascii :=
  match s with
  | c :: rest => if Ascii.eqb c "-" then rest else s
  | [] => []
  end.

(** A thousands-grouped integer, with a minus sign when negative:
    [1,234,567], [-12], [0]. *)
Definition is_grouped_integer (s : string) : bool :=
  grouped_digits_rev (rev (strip_sign (list_ascii_of_string s))).

(** [$<grouped-int>.<2 decimals>]: a dollar sign, a thousands-grouped
    integer, a point and exactly two digits: [$1,234.50], [$-0.07]. *)
Definition is_currency (s : string) : bool :=
  match list_ascii_of_string s with
  | c :: rest =>
      Ascii.eqb c "$" &&
      match rev (strip_sign rest) with
      | d2 :: d1 :: p :: int_rev =>
          is_digit d2 && is_digit d1 && Ascii.eqb p "." && grouped_digits_rev int_rev
      | _ => false
      end
  | [] => false
  end.

(** A value that is an [int] or a [float]. *)
Definition is_number (v : pyval) : bool :=
  match v with
  | PInt _ | PFloat _ => true
  | _ => false
  end.

(** A field of a quote as the service types it: a number, or [None]. *)
Definition is_optional_number (v : pyval) : bool :=
  match v with
  | PNone | PInt _ | PFloat _ => true
  | _ => false
  end.

(** An integer that [float] can take: it rounds to a finite float. Any
    other value passes. *)
Definition in_float_range (v : pyval) : bool :=
  match v with
  | PInt z => is_finite (b64_of_Z z)
  | _ => true
  end.

(** A float that is neither an infinity nor a NaN. Any other value
    passes. *)
Definition is_finite_value (v : pyval) : bool :=
  match v with
  | PFloat f => is_finite f
  | _ => true
  end.

(** ** Further vocabulary *)

Module ExtraSpec.
Import Client.

(** The decoded body of an error reply. *)
Definition error_body (detail : string) : pyval :=
  PDict (<["detail" := PStr detail]> ∅).

(** The six keys of a normalized quote. *)
Definition quote_keys : gset string :=
  {[ "current_price"; "volume"; "market_cap"; "fifty_day_average"; "name"; "currency" ]}.

(** A provider that knows [SHOP.TO] only. *)
Definition shop_provider (symbol : string) : result string pyval :=
  if String.eqb symbol "SHOP.TO"
  then Ok (PDict (<["currentPrice" := PFloat (b64_of_Q (25 # 2))]> ∅))
  else Raised "No data found, symbol may be delisted".

(** A provider that fails for [BAD.TO] and answers every other lookup with
    the same complete quote. *)
Definition picky_provider (i : nat) (symbol : string) : result string pyval :=
  if String.eqb symbol "BAD.TO"
  then Raised "No data found, symbol may be delisted"
  else Ok (PDict (<["currentPrice" := PFloat (b64_of_Q (1105 # 10))]>
                 (<["volume" := PInt 1234567]>
                 (<["marketCap" := PInt 2500000000]>
                 (<["fiftyDayAverage" := PInt 100]> ∅))))).

Definition picky_env : env :=
  {| now := fun i => 1700000000000000 + 1000000 * Z.of_nat i;
     post := served Server.starlette_str picky_provider;
     completion := fun _ => [];
     markup := fun _ => true;
     disk := fun _ _ => WriteDone |}.

(** A client whose requests never reach a service. *)
Definition offline_env : env :=
  {| now := fun i => Z.of_nat i;
     post := fun _ _ => Raised (ClientError "Cannot connect to host localhost:8000");
     completion := fun _ => [];
     markup := fun _ => true;
     disk := fun _ _ => WriteDone |}.

(** [rich] refuses a text with a closing tag that matches no open tag. On
    this terminal that is what is printed with [[/x]] put into it, as part
    of a symbol; everything else is rendered. *)
Definition no_stray_tag (item : console_item) : bool :=
  match item with
  | PrintText text => negb (contains "[/x]" text)
  | PrintError context _ => negb (contains "[/x]" context)
  | _ => true
  end.

(** The offline client on that terminal. *)
Definition strict_offline_env : env :=
  {| now := now offline_env; post := post offline_env;
     completion := completion offline_env;
     markup := no_stray_tag; disk := fun _ _ => WriteDone |}.

(** On that terminal, a client in front of a service whose provider
    cannot be read. *)
Definition strict_env : env :=
  {| now := fun i => Z.of_nat i;
     post := served Server.starlette_str (fun _ => ServerSpec.broken_provider);
     completion := fun _ => [];
     markup := no_stray_tag; disk := fun _ _ => WriteDone |}.

(** The first line [analyze_stock] prints. *)
Definition analysis_header (symbol : string) : console_item :=
  PrintText (newline +:+ "[bold]Analysis for " +:+ symbol +:+ "[/bold]").

(** The line [watch_stocks] prints after an export. *)
Definition export_notice (path : string) : console_item :=
  PrintText (newline +:+ "Data exported to " +:+ path).

End ExtraSpec.

(** ** Tactics *)

(** One step of a run: a case analysis on the next outcome that the run
    depends on (a reply, a check of the markup, a write). *)
Ltac step_run :=
  match goal with
  | |- context [match ?x with _ => _ end] =>
      match type of x with
      | result _ _ => destruct x
      | bool => destruct x
      | option _ => destruct x
      | Client.write_outcome => destruct x
      | Client.exn => destruct x
      end
  end.

Ltac run_cases := repeat (cbn -[append concat]; try step_run).

(** * Properties *)

(** ** Strings *)

Lemma length_append (s1 s2 : string) :
  String.length (s1 +:+ s2) = (String.length s1 + String.length s2)%nat.
Proof. induction s1 as [|c s1 IH]; simpl; [reflexivity | now rewrite IH]. Qed.

Lemma substring_all (s : string) : substring 0 (String.length s) s = s.
Proof. induction s as [|c s IH]; simpl; [reflexivity | now rewrite IH]. Qed.

Lemma substring_append_r (p suf : string) :
  substring (String.length p) (String.length suf) (p +:+ suf) = suf.
Proof. induction p as [|c p IH]; simpl; [apply substring_all | exact IH]. Qed.

Lemma substring_split (s : string) (n : nat) :
  (n <= String.length s)%nat ->
  s = substring 0 n s +:+ substring n (String.length s - n) s.
Proof.
  revert n. induction s as [|c s IH]; intros [|n] Hn; simpl in *.
  - reflexivity.
  - lia.
  - now rewrite substring_all.
  - change (String c s = String c (substring 0 n s +:+ substring n (String.length s - n) s)).
    f_equal. apply IH. lia.
Qed.

(** [endswith] is Python's [str.endswith]: the string is some prefix
    followed by the suffix. *)
Lemma endswith_spec (s suf : string) :
  endswith s suf = true <-> exists p, s = p +:+ suf.
Proof.
  unfold endswith. rewrite andb_true_iff, Nat.leb_le, String.eqb_eq. split.
  - intros [Hle Hsub]. exists (substring 0 (String.length s - String.length suf) s).
    pose proof (substring_split s (String.length s - String.length suf)) as E.
    replace (String.length s - (String.length s - String.length suf))%nat
      with (String.length suf) in E by lia.
    rewrite Hsub in E. apply E. lia.
  - intros [p ->]. rewrite length_append. split; [lia |].
    replace (String.length p + String.length suf - String.length suf)%nat
      with (String.length p) by lia.
    apply substring_append_r.
Qed.

(** ** The service *)

Module ServerFacts.
Import Server ServerSpec.

Section Facts.

Variable HTTPException_str : Z -> string -> string.
Variable Ticker_info : string -> result string pyval.

Local Abbreviation get_stock_data := (get_stock_data HTTPException_str Ticker_info).
Local Abbreviation get_stock_info := (get_stock_info HTTPException_str Ticker_info).

Lemma get_stock_data_lookups (symbol : string) (st : effects) :
  lookups (snd (get_stock_data symbol st)) = lookups st ++ [provider_symbol symbol].
Proof.
  unfold Server.get_stock_data, try_except, bind, query_provider, lift.
  destruct (Ticker_info (provider_symbol symbol)) as [info|msg]; simpl;
    [destruct info; simpl |]; reflexivity.
Qed.

Lemma get_stock_data_ok (symbol : string) (st : effects) (d : gmap string pyval) :
  Ticker_info (provider_symbol symbol) = Ok (PDict d) ->
  exists q, normalized_quote (PDict d) = Ok q /\
    get_stock_data symbol st =
      (Ok q, {| lookups := lookups st ++ [provider_symbol symbol]; log := log st |}).
Proof.
  intros H. eexists. split; [reflexivity |].
  unfold Server.get_stock_data, try_except, bind, query_provider, lift.
  rewrite H. reflexivity.
Qed.

Lemma get_stock_data_fails (symbol : string) (st : effects) (cause : string) :
  lookup_failure (Ticker_info (provider_symbol symbol)) = Some cause ->
  get_stock_data symbol st =
    (Raised (HTTPException 500 ("Error fetching stock data: " +:+ cause)),
     {| lookups := lookups st ++ [provider_symbol symbol];
        log := log st ++
          ["Error fetching data for " +:+ provider_symbol symbol +:+ ": " +:+ cause] |}).
Proof.
  intros H.
  unfold Server.get_stock_data, try_except, bind, query_provider, lift.
  destruct (Ticker_info (provider_symbol symbol)) as [info|msg]; simpl in *.
  - destruct info; simpl in *; try discriminate; injection H as <-; reflexivity.
  - injection H as <-. reflexivity.
Qed.

Lemma lookup_failure_cases (answer : result string pyval) :
  (exists d, answer = Ok (PDict d)) \/ (exists cause, lookup_failure answer = Some cause).
Proof.
  destruct answer as [info|msg]; [destruct info |]; simpl; eauto.
Qed.

(** C1. For every symbol [S] the provider is looked up with [S], followed
    by [.TO] unless [S] already ends with it (so no suffix is ever
    doubled), and whenever the request succeeds the [symbol] of the
    response is [S] itself, not the suffixed form; it does succeed whenever
    the provider returns a dict. *)
Theorem suffix_rule_and_symbol_echo (S : string) :
  let run := get_stock_info S no_effects in
  lookups (snd run) = [if endswith S ".TO" then S else S +:+ ".TO"] /\
  match fst run with
  | Ok resp => symbol resp = S
  | Raised _ => True
  end /\
  (forall d, Ticker_info (provider_symbol S) = Ok (PDict d) ->
     exists q, fst run = Ok {| symbol := S; data := q |}).
Proof.
  cbv zeta.
  assert (Hsym : provider_symbol S = if endswith S ".TO" then S else S +:+ ".TO")
    by (unfold provider_symbol; now destruct (endswith S ".TO")).
  unfold Server.get_stock_info, try_except, bind, ret.
  pose proof (get_stock_data_lookups S no_effects) as Hl.
  destruct (lookup_failure_cases (Ticker_info (provider_symbol S))) as [[d Hd]|[cause Hc]].
  - destruct (get_stock_data_ok S no_effects d Hd) as (q & _ & ->). simpl.
    split; [now rewrite Hsym |]. split; [reflexivity |]. intros d' _. now exists q.
  - rewrite (get_stock_data_fails S no_effects cause Hc). simpl.
    split; [now rewrite Hsym |]. split; [exact I |].
    intros d' Hd'. rewrite Hd' in Hc. discriminate.
Qed.

(** C2, amended. When the provider lookup fails (the provider raises, or
    what it returns is not a dict), the reply has status 500, never 200,
    and its detail is the text of the inner 500 error, whose own detail is
    ["Error fetching stock data: "] followed by the cause. The symbol that
    was tried, with its suffix, is written to the error log together with
    the cause; the detail is built from the cause alone. *)
Theorem lookup_failure_is_server_error (S cause : string) :
  lookup_failure (Ticker_info (provider_symbol S)) = Some cause ->
  let inner := "Error fetching stock data: " +:+ cause in
  post_stock HTTPException_str Ticker_info S =
    (500, PDict (<["detail" := PStr (HTTPException_str 500 inner)]> ∅)) /\
  fst (post_stock HTTPException_str Ticker_info S) <> 200 /\
  log (snd (get_stock_info S no_effects)) =
    ["Error fetching data for " +:+ provider_symbol S +:+ ": " +:+ cause;
     "Error processing request for " +:+ S +:+ ": " +:+ HTTPException_str 500 inner].
Proof.
  intros Hc. cbv zeta.
  unfold post_stock, Server.get_stock_info, try_except, bind, ret.
  rewrite (get_stock_data_fails S no_effects cause Hc). simpl.
  repeat split. discriminate.
Qed.

(** C8, amended. The handler rejects no symbol: for every string, the
    empty one included, the provider is queried exactly once, and the
    request succeeds exactly when that lookup returns a dict. *)
Theorem no_symbol_is_rejected (S : string) :
  let run := get_stock_info S no_effects in
  length (lookups (snd run)) = 1%nat /\
  ((exists resp, fst run = Ok resp) <->
   (exists d, Ticker_info (provider_symbol S) = Ok (PDict d))).
Proof.
  cbv zeta. split.
  - unfold Server.get_stock_info, try_except, bind, ret.
    pose proof (get_stock_data_lookups S no_effects) as Hl.
    destruct (get_stock_data S no_effects) as [[q|ex] st]; simpl in *;
      rewrite Hl; reflexivity.
  - unfold Server.get_stock_info, try_except, bind, ret.
    destruct (lookup_failure_cases (Ticker_info (provider_symbol S))) as [[d Hd]|[cause Hc]].
    + destruct (get_stock_data_ok S no_effects d Hd) as (q & _ & ->). simpl.
      split; eauto.
    + rewrite (get_stock_data_fails S no_effects cause Hc). simpl.
      split; intros [x Hx]; [discriminate | rewrite Hx in Hc; discriminate].
Qed.

End Facts.

Lemma suffix_rule_and_symbol_echo_witness :
  exists q, fst (get_stock_info starlette_str steady_provider "SHOP" no_effects)
            = Ok {| symbol := "SHOP"; data := q |}.
Proof.
  destruct (suffix_rule_and_symbol_echo starlette_str steady_provider "SHOP")
    as (_ & _ & H).
  apply (H (<["currentPrice" := PFloat (b64_of_Q (25 # 2))]> ∅)). reflexivity.
Defined.

Lemma lookup_failure_is_server_error_witness :
  fst (post_stock starlette_str broken_provider "SHOP") <> 200.
Proof.
  apply (lookup_failure_is_server_error starlette_str broken_provider "SHOP"
           "Expecting value: line 1 column 1 (char 0)").
  reflexivity.
Defined.

Lemma no_symbol_is_rejected_witness :
  exists resp, fst (get_stock_info starlette_str steady_provider "" no_effects) = Ok resp.
Proof.
  apply (no_symbol_is_rejected starlette_str steady_provider "").
  eexists. reflexivity.
Defined.

(** C2 as stated fails: the provider's reply for [SHOP.TO] cannot be
    decoded, and the detail of the 500 reply carries the cause but not the
    symbol that was tried. *)
Lemma detail_lacks_attempted_symbol :
  exists detail,
    post_stock starlette_str broken_provider "SHOP" =
      (500, PDict (<["detail" := PStr detail]> ∅)) /\
    lookups (snd (get_stock_info starlette_str broken_provider "SHOP" no_effects))
      = ["SHOP.TO"] /\
    contains "SHOP.TO" detail = false.
Proof.
  exists "500: Error fetching stock data: Expecting value: line 1 column 1 (char 0)".
  repeat split.
Qed.

(** C8 as stated fails: the empty symbol is accepted, the provider is asked
    for [.TO], and the reply is a 200 echoing the empty symbol. *)
Lemma empty_symbol_is_accepted :
  fst (post_stock starlette_str steady_provider "") = 200 /\
  (exists q, fst (get_stock_info starlette_str steady_provider "" no_effects)
             = Ok {| symbol := ""; data := q |}) /\
  lookups (snd (get_stock_info starlette_str steady_provider "" no_effects)) = [".TO"].
Proof.
  repeat split. eexists. reflexivity.
Qed.

End ServerFacts.

(** ** Number formatting *)

Lemma string_of_uint_digits (u : Decimal.uint) :
  forallb is_digit (list_ascii_of_string (NilEmpty.string_of_uint u)) = true.
Proof. induction u; simpl; auto. Qed.

Lemma digits_all_digits (n : N) : forallb is_digit (digits n) = true.
Proof.
  unfold digits, NilZero.string_of_uint.
  destruct (N.to_uint n) eqn:E; try reflexivity;
    rewrite <- E; apply string_of_uint_digits.
Qed.

Lemma digits_nonempty (n : N) : digits n <> [].
Proof.
  unfold digits, NilZero.string_of_uint.
  destruct (N.to_uint n); simpl; discriminate.
Qed.

Lemma digits_below_ten (n : N) :
  (n < 10)%N -> exists d, digits n = [d] /\ is_digit d = true.
Proof.
  intros H.
  assert (Hn : n ∈ [0; 1; 2; 3; 4; 5; 6; 7; 8; 9]%N).
  { rewrite !elem_of_cons. lia. }
  rewrite !elem_of_cons, elem_of_nil in Hn.
  repeat (destruct Hn as [-> | Hn]; [eexists; split; reflexivity |]).
  destruct Hn.
Qed.

(** [group_rev] consumes three digits at a time; so does induction on it. *)
Lemma by_threes (P : list ascii -> Prop) :
  P [] -> (forall d1, P [d1]) -> (forall d1 d2, P [d1; d2]) ->
  (forall d1 d2 d3, P [d1; d2; d3]) ->
  (forall d1 d2 d3 d4 rest, P (d4 :: rest) -> P (d1 :: d2 :: d3 :: d4 :: rest)) ->
  forall ds, P ds.
Proof.
  intros H0 H1 H2 H3 H4 ds.
  assert (H : forall n ds, (length ds <= n)%nat -> P ds).
  { clear ds. induction n as [|n IH]; intros ds Hlen.
    - destruct ds; [exact H0 | simpl in Hlen; lia].
    - destruct ds as [|d1 [|d2 [|d3 [|d4 rest]]]]; auto.
      apply H4, IH. simpl in *. lia. }
  apply (H (length ds)). lia.
Qed.

Lemma group_rev_step (d1 d2 d3 d4 : ascii) (rest : list ascii) :
  group_rev (d1 :: d2 :: d3 :: d4 :: rest) =
  d1 :: d2 :: d3 :: ","%char :: group_rev (d4 :: rest).
Proof. reflexivity. Qed.

Lemma group_rev_grouped (ds : list ascii) :
  ds <> [] -> forallb is_digit ds = true ->
  grouped_digits_rev (group_rev ds) = true.
Proof.
  induction ds as [|d1|d1 d2|d1 d2 d3|d1 d2 d3 d4 rest IH] using by_threes;
    intros Hne Hd; [congruence | exact Hd | exact Hd | exact Hd |].
  rewrite group_rev_step.
  change (is_digit d1 && is_digit d2 && is_digit d3 && Ascii.eqb "," "," &&
          grouped_digits_rev (group_rev (d4 :: rest)) = true).
  simpl in Hd.
  apply andb_prop in Hd as [H1 Hd]. apply andb_prop in Hd as [H2 Hd].
  apply andb_prop in Hd as [H3 Hd].
  rewrite H1, H2, H3. cbn [andb Ascii.eqb Bool.eqb].
  apply IH; [discriminate | exact Hd].
Qed.

Lemma group_rev_chars (ds : list ascii) (c : ascii) :
  In c (group_rev ds) -> In c ds \/ c = ","%char.
Proof.
  induction ds as [|d1|d1 d2|d1 d2 d3|d1 d2 d3 d4 rest IH] using by_threes;
    try (intros H; left; exact H).
  rewrite group_rev_step. intros [<- | [<- | [<- | [<- | H]]]]; simpl; auto.
  destruct (IH H) as [[<- | Hin] | ->]; auto 8.
Qed.

Lemma group_rev_nonempty (ds : list ascii) : ds <> [] -> group_rev ds <> [].
Proof. destruct ds as [|d1 [|d2 [|d3 [|d4 rest]]]]; simpl; congruence. Qed.

Lemma grouped_digits (n : N) : grouped_digits_rev (rev (grouped (digits n))) = true.
Proof.
  unfold grouped. rewrite rev_involutive.
  apply group_rev_grouped.
  - intros H. apply (f_equal (@rev ascii)) in H. rewrite rev_involutive in H.
    now apply (digits_nonempty n).
  - rewrite forallb_forall. intros c Hc. apply in_rev in Hc.
    pose proof (digits_all_digits n) as Hall. rewrite forallb_forall in Hall. auto.
Qed.

(** The grouped digits of a number never start with a minus sign. *)
Lemma grouped_digits_head (n : N) :
  exists c rest, grouped (digits n) = c :: rest /\ Ascii.eqb c "-" = false.
Proof.
  destruct (grouped (digits n)) as [|c rest] eqn:E.
  - unfold grouped in E. apply (f_equal (@rev ascii)) in E.
    rewrite rev_involutive in E. simpl in E.
    apply group_rev_nonempty in E; [destruct E |].
    intros H. apply (f_equal (@rev ascii)) in H. rewrite rev_involutive in H.
    now apply (digits_nonempty n).
  - exists c, rest. split; [reflexivity |].
    assert (Hin : In c (grouped (digits n))) by (rewrite E; now left).
    unfold grouped in Hin. apply in_rev in Hin.
    apply group_rev_chars in Hin as [Hin | ->]; [| reflexivity].
    apply in_rev in Hin.
    pose proof (digits_all_digits n) as Hall. rewrite forallb_forall in Hall.
    specialize (Hall c Hin).
    destruct (Ascii.eqb_spec c "-") as [-> | ]; [discriminate | reflexivity].
Qed.

Lemma strip_sign_prefix (neg : bool) (l : list ascii) :
  (exists c rest, l = c :: rest /\ Ascii.eqb c "-" = false) ->
  strip_sign (sign_prefix neg ++ l) = l.
Proof.
  intros (c & rest & -> & Hc). destruct neg; simpl; [reflexivity |].
  now rewrite Hc.
Qed.

Lemma format_int_grouped_pattern (z : Z) :
  is_grouped_integer (format_int_grouped z) = true.
Proof.
  unfold is_grouped_integer, format_int_grouped.
  rewrite list_ascii_of_string_of_list_ascii.
  rewrite strip_sign_prefix by apply grouped_digits_head.
  apply grouped_digits.
Qed.

Lemma format_2f_pattern (q : Q) :
  is_currency ("$" +:+ format_2f true q) = true.
Proof.
  unfold is_currency, format_2f.
  set (cents := round_half_even (Qabs q * 100)).
  change (list_ascii_of_string ("$" +:+ ?s)) with ("$"%char :: list_ascii_of_string s).
  rewrite list_ascii_of_string_of_list_ascii.
  cbn [andb Ascii.eqb Bool.eqb].
  destruct (grouped_digits_head (Z.to_N (cents / 100))) as (c & rest & E & Hc).
  assert (Hlt : (Z.to_N (cents mod 100) < 100)%N).
  { pose proof (Z.mod_pos_bound cents 100). lia. }
  destruct (digits_below_ten (Z.to_N (cents mod 100) / 10)) as (d1 & E1 & Hd1).
  { apply N.Div0.div_lt_upper_bound. lia. }
  destruct (digits_below_ten (Z.to_N (cents mod 100) mod 10)) as (d2 & E2 & Hd2).
  { apply N.mod_lt. lia. }
  rewrite E1, E2.
  rewrite strip_sign_prefix.
  2:{ exists c, (rest ++ "."%char :: [d1] ++ [d2]). rewrite E. split; [reflexivity | exact Hc]. }
  rewrite rev_app_distr. simpl.
  rewrite Hd1, Hd2. simpl. apply grouped_digits.
Qed.

(** ** The client: cells and the analysis table *)

Module ClientFacts.
Import Client ClientSpec.

Lemma rbind_ok {A B} (r : result exn A) (k : A -> result exn B) (a : A) :
  r = Ok a -> rbind r k = k a.
Proof. now intros ->. Qed.

Lemma rbind_Ok {A B} (r : result exn A) (k : A -> result exn B) (b : B) :
  rbind r k = Ok b -> exists a, r = Ok a /\ k a = Ok b.
Proof. destruct r as [a|ex]; simpl; intros H; [eauto | discriminate]. Qed.

Lemma rbind_raised {A B} (r : result exn A) (k : A -> result exn B) (e : exn) :
  rbind r k = Raised e -> r = Raised e \/ exists a, r = Ok a /\ k a = Raised e.
Proof.
  destruct r as [a|e']; simpl; intros H; [right; eauto | left].
  injection H as ->. reflexivity.
Qed.

(** *** Conversions *)

Lemma float_of_int_cases (z : Z) :
  (is_finite (b64_of_Z z) = true /\ float_of_int z = Ok (b64_of_Z z)) \/
  (is_finite (b64_of_Z z) = false /\ float_of_int z = Raised OverflowError).
Proof. unfold float_of_int. destruct (is_finite (b64_of_Z z)); auto. Qed.

Lemma float_of_bool (b : bool) : float_of_int (Z.b2z b) = Ok (b64_of_Z (Z.b2z b)).
Proof. destruct b; reflexivity. Qed.

(** Converting an operand raises nothing but [TypeError], for what is not
    a number, and [OverflowError], for an integer out of range. *)
Lemma to_float_raises (v : pyval) (ex : exn) :
  to_float v = Raised ex ->
  (is_numeric v = false /\ ex = TypeError) \/
  (exists z, v = PInt z /\ is_finite (b64_of_Z z) = false /\ ex = OverflowError).
Proof.
  destruct v as [|b|z|f|s|d]; cbn [to_float is_numeric]; intros H;
    try (injection H as <-; left; split; reflexivity); try discriminate.
  - rewrite float_of_bool in H. discriminate.
  - destruct (float_of_int_cases z) as [[_ E]|[Hf E]]; rewrite E in H;
      [discriminate | injection H as <-]. right. eauto.
Qed.

Lemma to_float_Ok (v : pyval) :
  is_numeric v = true -> in_float_range v = true -> exists f, to_float v = Ok f.
Proof.
  destruct v as [|b|z|f|s|d]; cbn [to_float is_numeric in_float_range];
    intros Hn Hr; try discriminate.
  - rewrite float_of_bool. eauto.
  - unfold float_of_int. rewrite Hr. eauto.
  - eauto.
Qed.

(** A truthy number is not zero. *)
Lemma truthy_not_zero (v : pyval) : truthy v = true -> is_zero_number v = false.
Proof.
  destruct v as [|b|z|f|s|d]; cbn [truthy is_zero_number]; intros H; try reflexivity.
  - now rewrite H.
  - now apply negb_true_iff in H.
  - now apply negb_true_iff in H.
Qed.

Lemma truthy_int_nonzero (v : pyval) (y : Z) :
  truthy v = true -> int_value v = Some y -> (y =? 0) = false.
Proof.
  destruct v as [|b|z|f|s|d]; cbn [truthy int_value]; intros Ht [= <-].
  - now rewrite Ht.
  - now apply negb_true_iff in Ht.
Qed.

(** *** Currency cells *)

Lemma format_currency_falsy (v : pyval) :
  truthy v = false -> format_currency v = Ok "N/A".
Proof. unfold format_currency. now intros ->. Qed.

Lemma format_currency_None : format_currency PNone = Ok "N/A".
Proof. reflexivity. Qed.

Lemma format_currency_float (f : spec_float) :
  is_zero f = false -> format_currency (PFloat f) = Ok ("$" +:+ format_float true f).
Proof. unfold format_currency. cbn [truthy]. now intros ->. Qed.

Lemma format_currency_int (z : Z) :
  z <> 0 ->
  format_currency (PInt z) = (f <~ float_of_int z ;; Ok ("$" +:+ format_float true f)).
Proof.
  intros Hz. unfold format_currency. cbn [truthy].
  apply Z.eqb_neq in Hz. rewrite Hz. cbn [negb format_grouped_2f to_float].
  destruct (float_of_int z); reflexivity.
Qed.

Lemma format_float_pattern (f : spec_float) :
  is_finite f = true -> is_currency ("$" +:+ format_float true f) = true.
Proof.
  destruct f as [[|]|[|]| |s m e]; try discriminate; intros _; try reflexivity.
  apply format_2f_pattern.
Qed.

Lemma format_currency_optional (v : pyval) :
  is_optional_number v = true -> in_float_range v = true ->
  exists s, format_currency v = Ok s.
Proof.
  intros Hn Hr. destruct (truthy v) eqn:Ht.
  2:{ exists "N/A". now apply format_currency_falsy. }
  destruct v as [|b|z|f|s|d]; try discriminate.
  - rewrite format_currency_int.
    + cbn in Hr. unfold float_of_int. rewrite Hr. cbn. eauto.
    + cbn in Ht. apply negb_true_iff, Z.eqb_neq in Ht. exact Ht.
  - rewrite format_currency_float; [eauto |].
    cbn in Ht. now apply negb_true_iff in Ht.
Qed.

Lemma format_currency_raises (v : pyval) (ex : exn) :
  format_currency v = Raised ex ->
  truthy v = true /\
  ((exists s, v = PStr s) /\ ex = ValueError \/
   (exists d, v = PDict d) /\ ex = TypeError \/
   (exists z, v = PInt z /\ is_finite (b64_of_Z z) = false) /\ ex = OverflowError).
Proof.
  unfold format_currency. destruct (truthy v) eqn:Ht; [| discriminate].
  intros H. split; [reflexivity |].
  destruct v as [|b|z|f|s|d]; cbn [format_grouped_2f to_float rbind] in H;
    try discriminate.
  - rewrite float_of_bool in H. discriminate.
  - destruct (float_of_int_cases z) as [[_ E]|[Hf E]]; rewrite E in H;
      [discriminate | injection H as <-]. right. right. eauto.
  - injection H as <-. left. eauto.
  - injection H as <-. right. left. eauto.
Qed.

(** *** The derived row *)

Lemma derived_rows_skipped (cp avg : pyval) :
  truthy cp && truthy avg = false -> derived_rows cp avg = Ok [].
Proof. unfold derived_rows. now intros ->. Qed.

Lemma derived_rows_floats (x y : spec_float) :
  truthy (PFloat x) && truthy (PFloat y) = true ->
  derived_rows (PFloat x) (PFloat y) = Ok [derived_row (percent_deviation x y)].
Proof.
  intros Ht. unfold derived_rows. rewrite Ht.
  apply andb_prop in Ht as [_ Ht]. apply truthy_not_zero in Ht.
  cbn [py_sub int_value is_numeric andb to_float rbind].
  unfold py_truediv.
  cbn [int_value is_numeric andb to_float rbind]. rewrite Ht. reflexivity.
Qed.

Lemma derived_rows_ints (x y : Z) :
  truthy (PInt x) && truthy (PInt y) = true ->
  derived_rows (PInt x) (PInt y) =
    if is_finite (b64_div (SF_of_Z (x - y)) (SF_of_Z y))
    then Ok [derived_row (percent_deviation_int x y)]
    else Raised OverflowError.
Proof.
  intros Ht. unfold derived_rows. rewrite Ht.
  apply andb_prop in Ht as [_ Ht].
  pose proof (truthy_int_nonzero (PInt y) y Ht eq_refl) as Hy.
  cbn [py_sub int_value rbind]. unfold py_truediv. cbn [int_value]. rewrite Hy.
  destruct (is_finite _); reflexivity.
Qed.

(** An operation on two operands taken as floats raises [TypeError] for
    an operand that is not a number, [OverflowError] for an integer out of
    range, or what the operation itself raises. *)
Lemma float_operands_raise {B} (a b : pyval)
    (k : spec_float -> spec_float -> result exn B) (ex : exn) :
  (if is_numeric a && is_numeric b
   then fa <~ to_float a ;; fb <~ to_float b ;; k fa fb
   else Raised TypeError) = Raised ex ->
  (is_numeric a && is_numeric b = false /\ ex = TypeError) \/
  (is_numeric a && is_numeric b = true /\
   ((ex = OverflowError /\ (in_float_range a = false \/ in_float_range b = false)) \/
    exists fa fb, to_float a = Ok fa /\ to_float b = Ok fb /\ k fa fb = Raised ex)).
Proof.
  destruct (is_numeric a && is_numeric b) eqn:Hn;
    [| intros [= <-]; left; split; reflexivity].
  intros H. right. split; [reflexivity |].
  apply andb_prop in Hn as [Hna Hnb].
  apply rbind_raised in H as [H | (fa & Hfa & H)].
  { apply to_float_raises in H as [[Hf _] | (z & -> & Hz & ->)]; [congruence |].
    left. split; [reflexivity |]. left. exact Hz. }
  apply rbind_raised in H as [H | (fb & Hfb & H)].
  { apply to_float_raises in H as [[Hf _] | (z & -> & Hz & ->)]; [congruence |].
    left. split; [reflexivity |]. right. exact Hz. }
  right. eauto.
Qed.

Lemma py_sub_raises (a b : pyval) (ex : exn) :
  py_sub a b = Raised ex ->
  (is_numeric a && is_numeric b = false /\ ex = TypeError) \/
  (is_numeric a && is_numeric b = true /\ ex = OverflowError /\
   (in_float_range a = false \/ in_float_range b = false)).
Proof.
  unfold py_sub. intros H.
  assert (Hk : (if is_numeric a && is_numeric b
                then fa <~ to_float a ;; fb <~ to_float b ;; Ok (PFloat (b64_sub fa fb))
                else Raised TypeError) = Raised ex).
  { destruct (int_value a), (int_value b); try discriminate; exact H. }
  apply float_operands_raise in Hk as [Hk | [Hn [Hk | (fa & fb & _ & _ & Hk)]]];
    [left; exact Hk | right; tauto | discriminate].
Qed.

Lemma py_truediv_raises (a b : pyval) (ex : exn) :
  truthy b = true ->
  py_truediv a b = Raised ex -> ex = TypeError \/ ex = OverflowError.
Proof.
  intros Ht. unfold py_truediv. intros H.
  destruct (int_value a) as [x|] eqn:Ha, (int_value b) as [y|] eqn:Hb.
  { rewrite (truthy_int_nonzero b y Ht Hb) in H.
    destruct (is_finite _); [discriminate | injection H as <-; auto]. }
  all: apply float_operands_raise in H
         as [[_ ->] | [_ [[-> _] | (fa & fb & _ & _ & H)]]]; auto;
       rewrite (truthy_not_zero b Ht) in H; discriminate.
Qed.

(** What the derived rows are when they are computed: one row, for some
    deviation. *)
Lemma derived_rows_Ok (cp avg : pyval) (derived : list (list string)) :
  truthy cp && truthy avg = true -> derived_rows cp avg = Ok derived ->
  exists deviation, derived = [derived_row deviation].
Proof.
  intros Ht. unfold derived_rows. rewrite Ht. intros H.
  apply rbind_Ok in H as (diff & _ & H).
  apply rbind_Ok in H as (ratio & _ & H).
  injection H as <-. eauto.
Qed.

(** The derived rows raise nothing but [TypeError] and [OverflowError]. *)
Lemma derived_rows_raises (cp avg : pyval) (ex : exn) :
  derived_rows cp avg = Raised ex ->
  truthy cp && truthy avg = true /\ (ex = TypeError \/ ex = OverflowError).
Proof.
  unfold derived_rows. destruct (truthy cp && truthy avg) eqn:Ht; [| discriminate].
  intros H. split; [reflexivity |].
  apply andb_prop in Ht as [_ Ht].
  apply rbind_raised in H as [H | (diff & _ & H)].
  - apply py_sub_raises in H as [[_ ->] | (_ & -> & _)]; auto.
  - apply rbind_raised in H as [H | (ratio & _ & H)]; [| discriminate].
    now apply py_truediv_raises in H.
Qed.

(** Between numbers in range, only the quotient of two integers can be
    out of range. *)
Lemma derived_rows_overflow (cp avg : pyval) (ex : exn) :
  is_optional_number cp = true -> is_optional_number avg = true ->
  in_float_range cp = true -> in_float_range avg = true ->
  derived_rows cp avg = Raised ex ->
  ex = OverflowError /\
  exists x y, cp = PInt x /\ avg = PInt y /\
    is_finite (b64_div (SF_of_Z (x - y)) (SF_of_Z y)) = false.
Proof.
  intros Hcp Havg Rcp Ravg H.
  pose proof (derived_rows_raises cp avg ex H) as [Ht _].
  apply andb_prop in Ht as Ht'. destruct Ht' as [Htc Hta].
  destruct cp as [| |x|x| |]; try discriminate;
    destruct avg as [| |y|y| |]; try discriminate.
  - rewrite derived_rows_ints in H by exact Ht.
    destruct (is_finite _) eqn:Hq; [discriminate |]. injection H as <-.
    split; [reflexivity |]. exists x, y. auto.
  - exfalso. unfold derived_rows in H. rewrite Ht in H.
    cbn [py_sub int_value is_numeric andb to_float rbind] in H.
    unfold float_of_int in H. cbn [in_float_range] in Rcp. rewrite Rcp in H.
    cbn [rbind] in H. unfold py_truediv in H.
    cbn [int_value is_numeric andb to_float rbind] in H.
    rewrite (truthy_not_zero _ Hta) in H. discriminate.
  - exfalso. unfold derived_rows in H. rewrite Ht in H.
    cbn [py_sub int_value is_numeric andb to_float rbind] in H.
    unfold float_of_int in H. cbn [in_float_range] in Ravg. rewrite Ravg in H.
    cbn [rbind] in H. unfold py_truediv in H.
    cbn [int_value is_numeric andb to_float rbind] in H.
    unfold float_of_int in H. rewrite Ravg in H. cbn [rbind] in H.
    rewrite (truthy_not_zero _ Hta) in H. discriminate.
  - rewrite derived_rows_floats in H by exact Ht. discriminate.
Qed.


(** *** Division by zero *)

Lemma subscript_no_zero_division (v : pyval) (k : string) :
  subscript v k <> Raised ZeroDivisionError.
Proof. destruct v; simpl; try discriminate. destruct (d !! k); discriminate. Qed.

Lemma py_get_no_zero_division (v : pyval) (k : string) :
  py_get v k <> Raised ZeroDivisionError.
Proof. destruct v; discriminate. Qed.

Lemma py_get_default_no_zero_division (v : pyval) (k : string) (dflt : pyval) :
  py_get_default v k dflt <> Raised ZeroDivisionError.
Proof. destruct v; discriminate. Qed.

Lemma format_currency_no_zero_division (v : pyval) :
  format_currency v <> Raised ZeroDivisionError.
Proof.
  intros H. apply format_currency_raises in H as [_ [[_ H] | [[_ H] | [_ H]]]];
    discriminate.
Qed.

(** A truthy divisor is not zero. *)
Lemma truthy_divisor (dividend divisor : pyval) :
  truthy divisor = true -> py_truediv dividend divisor <> Raised ZeroDivisionError.
Proof.
  intros Ht H. apply py_truediv_raises in H as [H | H]; [discriminate.. | exact Ht].
Qed.

Lemma derived_rows_no_zero_division (cp avg : pyval) :
  derived_rows cp avg <> Raised ZeroDivisionError.
Proof. intros H. apply derived_rows_raises in H as [_ [H | H]]; discriminate. Qed.

(** C10. The division by the 50-day average cannot raise
    [ZeroDivisionError]: the derived rows are computed only when both
    values are truthy, and a truthy divisor is never zero. So for every
    response either the derived row is skipped or the divisor is not
    zero. *)
Theorem division_is_guarded (stock_data current_price fifty_day_avg : pyval) :
  analysis_table stock_data <> Raised ZeroDivisionError /\
  derived_rows current_price fifty_day_avg <> Raised ZeroDivisionError /\
  (truthy current_price && truthy fifty_day_avg = false /\
     derived_rows current_price fifty_day_avg = Ok []
   \/
   truthy current_price && truthy fifty_day_avg = true /\
     forall dividend, py_truediv dividend fifty_day_avg <> Raised ZeroDivisionError).
Proof.
  split; [| split].
  - unfold analysis_table. intros H.
    apply rbind_raised in H as [H | (data & _ & H)];
      [now apply subscript_no_zero_division in H |].
    apply rbind_raised in H as [H | (cp & _ & H)];
      [now apply py_get_default_no_zero_division in H |].
    apply rbind_raised in H as [H | (avg & _ & H)];
      [now apply py_get_default_no_zero_division in H |].
    apply rbind_raised in H as [H | (derived & _ & H)];
      [now apply derived_rows_no_zero_division in H |].
    apply rbind_raised in H as [H | (c_price & _ & H)];
      [now apply format_currency_no_zero_division in H |].
    apply rbind_raised in H as [H | (c_avg & _ & H)];
      [now apply format_currency_no_zero_division in H |].
    apply rbind_raised in H as [H | (mc & _ & H)];
      [now apply py_get_no_zero_division in H |].
    apply rbind_raised in H as [H | (c_cap & _ & H)];
      [now apply format_currency_no_zero_division in H | discriminate].
  - apply derived_rows_no_zero_division.
  - destruct (truthy current_price && truthy fifty_day_avg) eqn:Ht.
    + right. split; [reflexivity |]. intros dividend.
      apply andb_prop in Ht as [_ Ht]. now apply truthy_divisor.
    + left. split; [reflexivity |]. now apply derived_rows_skipped.
Qed.

Section Cells.

Variable float_grouped_repr : spec_float -> string.

Local Abbreviation volume_cell := (volume_cell float_grouped_repr).
Local Abbreviation stock_row := (stock_row float_grouped_repr).


End Cells.

(** ** What a run leaves untouched *)

Lemma asyncio_run_world {A} (main : prog world exn A) (w : world) :
  snd (asyncio_run main w) = snd (main w).
Proof. unfold asyncio_run. destruct (main w) as [[a|[]] w']; reflexivity. Qed.

Lemma sleeps_timeline (w w' : world) (l : list event) :
  timeline w' = timeline w ++ l ->
  sleeps w' =
    sleeps w ++ omap (fun ev => match ev with Slept i => Some i | _ => None end) l.
Proof. unfold sleeps. intros ->. apply omap_app. Qed.

Lemma sessions_timeline (w w' : world) (l : list event) :
  timeline w' = timeline w ++ l ->
  sessions w' = sessions w ++ List.filter is_session_event l.
Proof. unfold sessions. intros ->. apply List.filter_app. Qed.

(** Whatever happens in [analyze_stock], it opens one session and closes
    it, sends one request, sleeps never and writes nothing. *)
Lemma analyze_stock_frame (e : env) (symbol : string) (w : world) :
  let w' := snd (analyze_stock e symbol w) in
  timeline w' = timeline w ++ [SessionOpened; SessionClosed] /\
  requests w' = requests w ++ [symbol] /\
  files w' = files w /\ writes w' = writes w.
Proof.
  unfold analyze_stock, with_client, try_finally, try_except, bind, modify,
    get_stock_info, console_print, lift, raise.
  run_cases; rewrite <- ?app_assoc; auto.
Qed.

(** C9. Two runs of [analyze] on the same symbol that differ only in
    [days] do the same thing: the same single request, carrying the symbol
    only, and the same output. *)
Theorem days_do_not_interfere (e : env) (symbol : string) (days1 days2 : Z) (w : world) :
  analyze e symbol days1 w = analyze e symbol days2 w /\
  requests (snd (analyze e symbol days1 w)) = requests w ++ [symbol].
Proof.
  split; [reflexivity |].
  unfold analyze. rewrite asyncio_run_world.
  now destruct (analyze_stock_frame e symbol w) as (_ & H & _).
Qed.

(** ** The fan-out *)

Section Gather.

Context {A : Type}.

(** Completions that all succeed fill their slots and nothing else. *)
Lemma gather_run_ok (results : list A) (order : list nat) (slots : list (option A)) :
  length slots = length results ->
  exists slots',
    gather_run (Ok <$> results) order slots = Ok slots' /\
    length slots' = length results /\
    forall i, slots' !! i =
      if bool_decide (i ∈ order) then Some <$> results !! i else slots !! i.
Proof.
  revert slots. induction order as [|j order IH]; intros slots Hlen.
  - exists slots. split; [reflexivity |]. split; [exact Hlen |].
    intros i. rewrite bool_decide_eq_false_2; [reflexivity | apply not_elem_of_nil].
  - simpl. rewrite list_lookup_fmap.
    destruct (results !! j) as [a|] eqn:Hj; simpl.
    + destruct (IH (<[j := Some a]> slots)) as (slots' & Hrun & Hlen' & Hget).
      { now rewrite length_insert. }
      exists slots'. split; [exact Hrun |]. split; [exact Hlen' |].
      intros i. rewrite Hget.
      destruct (decide (i ∈ order)) as [Hin|Hin].
      * rewrite !bool_decide_eq_true_2; [reflexivity | now right | exact Hin].
      * rewrite (bool_decide_eq_false_2 _ Hin).
        destruct (decide (i = j)) as [->|Hne].
        -- rewrite bool_decide_eq_true_2 by now left.
           rewrite Hj. simpl. apply list_lookup_insert_eq.
           rewrite Hlen. now apply lookup_lt_Some in Hj.
        -- rewrite bool_decide_eq_false_2.
           ++ now rewrite list_lookup_insert_ne.
           ++ rewrite elem_of_cons. tauto.
    + destruct (IH slots Hlen) as (slots' & Hrun & Hlen' & Hget).
      exists slots'. split; [exact Hrun |]. split; [exact Hlen' |].
      intros i. rewrite Hget.
      destruct (decide (i ∈ order)) as [Hin|Hin].
      * rewrite !bool_decide_eq_true_2; [reflexivity | now right | exact Hin].
      * rewrite (bool_decide_eq_false_2 _ Hin).
        destruct (decide (i = j)) as [->|Hne].
        -- rewrite bool_decide_eq_true_2 by now left.
           rewrite Hj. simpl. apply lookup_ge_None in Hj.
           rewrite (lookup_ge_None_2 slots j); [reflexivity | lia].
        -- rewrite bool_decide_eq_false_2; [reflexivity |].
           rewrite elem_of_cons. tauto.
Qed.

Lemma omap_id_Some (l : list A) : omap id (Some <$> l) = l.
Proof. induction l as [|a l IH]; [reflexivity |]. cbn. f_equal. exact IH. Qed.

(** Whatever the completion order, the results of a batch whose requests
    all succeed come back in request order. *)
Lemma gather_ok (results : list A) (order : list nat) :
  gather (Ok <$> results) order = Ok results.
Proof.
  unfold gather. rewrite length_fmap.
  destruct (gather_run_ok results (order ++ seq 0 (length results))
              (replicate (length results) None)) as (slots & -> & Hlen & Hget).
  { apply length_replicate. }
  simpl. f_equal.
  assert (slots = Some <$> results) as ->; [| apply omap_id_Some].
  apply list_eq. intros i. rewrite Hget, list_lookup_fmap.
  destruct (decide (i < length results)%nat) as [Hlt|Hge].
  - rewrite bool_decide_eq_true_2; [reflexivity |].
    rewrite elem_of_app, elem_of_seq. right. lia.
  - rewrite (lookup_ge_None_2 results i) by lia. simpl.
    destruct (bool_decide _); [reflexivity |].
    apply lookup_ge_None_2. rewrite length_replicate. lia.
Qed.

End Gather.


(** ** Replies of the service, as the client decodes them *)

(** A reply is either a 200 carrying the symbol of the request and a
    quote, or a 500 carrying a detail. *)
Lemma reply_cases (HTTPException_str : Z -> string -> string)
    (Ticker_info : string -> result string pyval) (symbol : string) :
  (exists q, Server.post_stock HTTPException_str Ticker_info symbol =
             (200, quote_body symbol q)) \/
  (exists detail, Server.post_stock HTTPException_str Ticker_info symbol =
                  (500, PDict (<["detail" := PStr detail]> ∅))).
Proof.
  unfold Server.post_stock, Server.get_stock_info, try_except, bind, ret.
  destruct (ServerFacts.lookup_failure_cases
              (Ticker_info (Server.provider_symbol symbol))) as [[d Hd]|[cause Hc]].
  - destruct (ServerFacts.get_stock_data_ok HTTPException_str Ticker_info symbol
                Server.no_effects d Hd) as (q & _ & ->).
    left. exists q. reflexivity.
  - rewrite (ServerFacts.get_stock_data_fails HTTPException_str Ticker_info symbol
               Server.no_effects cause Hc).
    right. eexists. reflexivity.
Qed.

Lemma reply_symbol (HTTPException_str : Z -> string -> string)
    (Ticker_info : string -> result string pyval) (symbol : string) (v : pyval) :
  subscript (snd (Server.post_stock HTTPException_str Ticker_info symbol)) "symbol" = Ok v ->
  v = PStr symbol.
Proof.
  destruct (reply_cases HTTPException_str Ticker_info symbol) as [[q ->]|[detail ->]];
    unfold quote_body; simpl.
  - rewrite lookup_insert_eq. now intros [= <-].
  - rewrite lookup_insert_ne by discriminate. rewrite lookup_empty. discriminate.
Qed.

Lemma batch_bodies_echo (HTTPException_str : Z -> string -> string)
    (provider : nat -> string -> result string pyval) (first : nat)
    (symbols : list string) :
  Forall2 echoes symbols (batch_bodies HTTPException_str provider first symbols).
Proof.
  unfold batch_bodies. apply Forall2_same_length_lookup_2.
  - now rewrite length_imap.
  - intros i s body Hs Hb. rewrite list_lookup_imap, Hs in Hb.
    injection Hb as <-. intros v. apply reply_symbol.
Qed.

Section Tables.

Variable float_grouped_repr : spec_float -> string.

Local Abbreviation stock_row := (stock_row float_grouped_repr).
Local Abbreviation add_stock_rows := (add_stock_rows float_grouped_repr).
Local Abbreviation create_stock_table := (create_stock_table float_grouped_repr).

(** A row that renders starts with the symbol of its stock and was made
    from a stock that has its [data]. *)
Lemma stock_row_Ok (stock : pyval) (cells : list string) :
  stock_row stock = Ok cells ->
  exists v c rest d,
    subscript stock "symbol" = Ok v /\ renderable v = Ok c /\ cells = c :: rest /\
    subscript stock "data" = Ok (PDict d).
Proof.
  unfold Client.stock_row. intros H.
  apply rbind_Ok in H as (v & Hv & H).
  apply rbind_Ok in H as (sd & Hsd & H).
  apply rbind_Ok in H as (cp & Hcp & H).
  apply rbind_Ok in H as (c1 & _ & H).
  apply rbind_Ok in H as (vol & _ & H).
  apply rbind_Ok in H as (c2 & _ & H).
  apply rbind_Ok in H as (mc & _ & H).
  apply rbind_Ok in H as (c3 & _ & H).
  apply rbind_Ok in H as (avg & _ & H).
  apply rbind_Ok in H as (c4 & _ & H).
  apply rbind_Ok in H as (c & Hc & H).
  injection H as <-.
  destruct sd; try discriminate.
  exists v, c, [c1; c2; c3; c4], d. auto.
Qed.

Lemma add_stock_rows_symbols (symbols : list string) (data : list pyval) :
  Forall2 echoes symbols data ->
  forall t t', add_stock_rows t data = Ok t' ->
  hd "" <$> rows t' = (hd "" <$> rows t) ++ symbols.
Proof.
  induction 1 as [|s stock symbols data Hecho _ IH]; intros t t' H; simpl in H.
  - injection H as <-. now rewrite app_nil_r.
  - apply rbind_Ok in H as (cells & Hcells & H).
    apply stock_row_Ok in Hcells as (v & c & rest & d & Hv & Hc & -> & _).
    apply Hecho in Hv as ->. injection Hc as <-.
    rewrite (IH _ _ H). unfold add_row. simpl.
    rewrite fmap_app, <- app_assoc. reflexivity.
Qed.

(** In front of the service every request of a batch is answered, so the
    fan-out returns the bodies in request order whatever the schedule. *)
Lemma get_multiple_stocks_served (HTTPException_str : Z -> string -> string)
    (provider : nat -> string -> result string pyval) (e : env)
    (symbols : list string) (w : world) :
  in_front_of HTTPException_str provider e ->
  get_multiple_stocks e symbols w =
  (Ok (batch_bodies HTTPException_str provider (length (requests w)) symbols),
   set_batches (S (batches w)) (set_requests (requests w ++ symbols) w)).
Proof.
  intros Hpost. unfold get_multiple_stocks. f_equal.
  replace (imap _ symbols)
    with (Ok (E:=exn) <$> batch_bodies HTTPException_str provider (length (requests w)) symbols).
  - apply gather_ok.
  - unfold batch_bodies. apply list_eq. intros i.
    rewrite list_lookup_fmap, !list_lookup_imap.
    destruct (symbols !! i); [| reflexivity]. cbn. now rewrite Hpost.
Qed.

Lemma served_env_in_front (HTTPException_str : Z -> string -> string)
    (provider : nat -> string -> result string pyval) (clock : nat -> Z)
    (schedule : nat -> list nat) :
  in_front_of HTTPException_str provider
    (served_env HTTPException_str provider clock schedule).
Proof. intros i symbol. reflexivity. Qed.

(** C3. The fan-out hands one request per symbol to [gather], in the order
    of [symbols]; whatever the order in which the requests complete, the
    results come back in request order, so the bodies are those of
    [s1], ..., [sn] in that order, and the rows of the table that is drawn
    from them list [s1], ..., [sn] in that order. *)
Theorem fan_out_keeps_request_order (HTTPException_str : Z -> string -> string)
    (provider : nat -> string -> result string pyval) (clock : nat -> Z)
    (schedule : nat -> list nat) (symbols : list string) (w : world) :
  let e := served_env HTTPException_str provider clock schedule in
  let bodies := batch_bodies HTTPException_str provider (length (requests w)) symbols in
  (forall order, gather (Ok <$> bodies) order = Ok bodies) /\
  fst (get_multiple_stocks e symbols w) = Ok bodies /\
  requests (snd (get_multiple_stocks e symbols w)) = requests w ++ symbols /\
  length bodies = length symbols /\
  (forall j symbol body, symbols !! j = Some symbol -> bodies !! j = Some body ->
     echoes symbol body) /\
  (forall table, create_stock_table bodies = Ok table ->
     hd "" <$> rows table = symbols).
Proof.
  intros e bodies.
  split; [intros order; apply gather_ok |].
  split; [unfold e; rewrite get_multiple_stocks_served
                       with (HTTPException_str := HTTPException_str) (provider := provider)
                       by apply served_env_in_front; reflexivity |].
  split; [reflexivity |].
  split; [unfold bodies, batch_bodies; apply length_imap |].
  split.
  - intros j symbol body Hs Hb.
    pose proof (batch_bodies_echo HTTPException_str provider (length (requests w)) symbols) as HF.
    eapply Forall2_lookup_lr; eassumption.
  - intros table Ht. unfold Client.create_stock_table in Ht.
    apply (add_stock_rows_symbols symbols bodies) in Ht;
      [exact Ht | apply batch_bodies_echo].
Qed.

End Tables.


(** ** Sessions *)

Section Sessions.

Variable float_grouped_repr : spec_float -> string.
Variable e : env.

Local Abbreviation cycle := (cycle float_grouped_repr e).
Local Abbreviation watch_loop := (watch_loop float_grouped_repr e).
Local Abbreviation watch_stocks := (watch_stocks float_grouped_repr e).
Local Abbreviation watch := (watch float_grouped_repr e).

(** Whatever happens in a cycle, it opens one session, closes it, and
    sends one batch of requests; it does not sleep. *)
Lemma cycle_frame (symbols : list string) (output : option string)
    (df_list : list (list csv_row)) (w : world) :
  let w' := snd (cycle symbols output df_list w) in
  timeline w' = timeline w ++ [SessionOpened; SessionClosed] /\
  batches w' = S (batches w) /\
  requests w' = requests w ++ symbols.
Proof.
  unfold Client.cycle, with_client, try_finally, bind, modify, get_multiple_stocks,
    console_clear, console_print, lift, datetime_now, to_csv, ret.
  cbn [fst snd].
  destruct (gather _ _) as [stock_data|ex]; cbn.
  2:{ rewrite <- app_assoc. auto. }
  destruct (create_stock_table _ _) as [table|ex]; cbn.
  2:{ rewrite <- app_assoc. auto. }
  destruct (markup e _); cbn.
  2:{ rewrite <- app_assoc. auto. }
  destruct (output_given output) as [path|]; cbn.
  2:{ rewrite <- app_assoc. auto. }
  destruct (snapshot _ _) as [df|ex]; cbn.
  2:{ rewrite <- app_assoc. auto. }
  destruct (disk e _ _) as [|[partial|]]; cbn; try (rewrite <- app_assoc; auto).
  destruct (markup e _); cbn; rewrite <- app_assoc; auto.
Qed.

Lemma watch_loop_step (cycles : nat) (symbols : list string) (interval : Z)
    (output : option string) (df_list : list (list csv_row)) (w : world) :
  watch_loop (S cycles) symbols interval output df_list w =
  match cycle symbols output df_list w with
  | (Ok df_list', w') =>
      watch_loop cycles symbols interval output df_list'
        (set_timeline (timeline w' ++ [Slept interval]) w')
  | (Raised ex, w') => (Raised ex, w')
  end.
Proof.
  cbn [Client.watch_loop]. unfold bind at 1.
  destruct (cycle symbols output df_list w) as [[df_list'|ex] w']; reflexivity.
Qed.

(** The handlers of [watch_stocks] print at most one line: they touch
    nothing but the console. *)
Lemma watch_stocks_world (cycles : nat) (symbols : list string) (interval : Z)
    (output : option string) (w : world) :
  let w1 := snd (watch_loop cycles symbols interval output [] w) in
  let w' := snd (watch_stocks cycles symbols interval output w) in
  files w' = files w1 /\ clock_reads w' = clock_reads w1 /\
  requests w' = requests w1 /\ batches w' = batches w1 /\
  timeline w' = timeline w1 /\ writes w' = writes w1.
Proof.
  cbv zeta. unfold Client.watch_stocks, try_except, console_print, raise.
  destruct (Client.watch_loop float_grouped_repr e cycles symbols interval output [] w)
    as [[[]|ex] w1]; cbn [snd]; [auto 6 |].
  destruct ex; cbn [is_Exception snd]; try destruct (markup e _); cbn; auto 6.
Qed.

(** The loop opens and closes one session per cycle it begins, and goes to
    sleep after each cycle it completes, when the session of that cycle is
    closed; a cycle that fails is the last. *)
Lemma watch_loop_timeline (symbols : list string) (interval : Z) (output : option string)
    (cycles : nat) (df_list : list (list csv_row)) (w : world) :
  exists begun completed : nat,
    let w' := snd (watch_loop cycles symbols interval output df_list w) in
    timeline w' =
      timeline w ++ concat (replicate completed (completed_cycle interval)) ++
      concat (replicate (begun - completed) failed_cycle) /\
    batches w' = (batches w + begun)%nat /\
    (completed <= begun <= cycles)%nat /\ (begun <= completed + 1)%nat.
Proof.
  revert df_list w. induction cycles as [|cycles IH]; intros df_list w.
  - exists 0%nat, 0%nat. cbn. rewrite !app_nil_r. repeat split; lia.
  - rewrite watch_loop_step.
    pose proof (cycle_frame symbols output df_list w) as (Hs & Hb & _).
    destruct (cycle symbols output df_list w) as [[df_list'|ex] w1]; cbn [snd] in *.
    + destruct (IH df_list' (set_timeline (timeline w1 ++ [Slept interval]) w1))
        as (begun & completed & Hs' & Hb' & Hle & Hle').
      exists (S begun), (S completed). cbn zeta in *.
      rewrite Hs', Hb'. cbn [timeline batches set_timeline].
      rewrite Hs, Hb. cbn [replicate concat completed_cycle Nat.sub].
      rewrite <- !app_assoc. repeat split; lia.
    + exists 1%nat, 0%nat. cbn. rewrite Hs, Hb.
      repeat split; lia.
Qed.


End Sessions.


(** ** The export *)

Lemma fmap_concat_constant {A B} (f : A -> B) (column : list B) (snaps : list (list A)) :
  (forall c df, snaps !! c = Some df -> f <$> df = column) ->
  f <$> concat snaps = concat (replicate (length snaps) column).
Proof.
  induction snaps as [|df snaps IH]; intros H; [reflexivity |].
  cbn [concat length replicate]. rewrite fmap_app, (H 0%nat df eq_refl). f_equal.
  apply IH. intros c df' Hc. apply (H (S c) df' Hc).
Qed.

Section CsvExport.

Variable float_grouped_repr : spec_float -> string.
Variable HTTPException_str : Z -> string -> string.
Variable provider : nat -> string -> result string pyval.
Variable e : env.
Hypothesis e_served : in_front_of HTTPException_str provider e.

Local Abbreviation bodies_at := (batch_bodies HTTPException_str provider).
Local Abbreviation stock_row := (stock_row float_grouped_repr).
Local Abbreviation add_stock_rows := (add_stock_rows float_grouped_repr).
Local Abbreviation create_stock_table := (create_stock_table float_grouped_repr).
Local Abbreviation cycle := (cycle float_grouped_repr e).
Local Abbreviation watch_loop := (watch_loop float_grouped_repr e).
Local Abbreviation watch_stocks := (watch_stocks float_grouped_repr e).

(** A stock that makes a table row also makes a line of the export. *)
Lemma snapshot_row_Ok (ts : Z) (symbol : string) (stock : pyval) (cells : list string) :
  echoes symbol stock -> stock_row stock = Ok cells ->
  exists row, snapshot_row ts stock = Ok row /\
    timestamp row = ts /\ row_symbol row = PStr symbol.
Proof.
  intros Hecho H.
  apply stock_row_Ok in H as (v & c & rest & d & Hv & _ & _ & Hd).
  pose proof (Hecho v Hv) as ->.
  unfold snapshot_row. rewrite Hv, Hd. cbn. eexists. repeat split.
Qed.

Lemma snapshot_Ok (ts : Z) (symbols : list string) (data : list pyval) :
  Forall2 echoes symbols data ->
  forall t t', add_stock_rows t data = Ok t' ->
  exists df, snapshot ts data = Ok df /\
    row_symbol <$> df = PStr <$> symbols /\
    (forall r, r ∈ df -> timestamp r = ts).
Proof.
  induction 1 as [|s stock symbols data Hecho _ IH]; intros t t' H; simpl in H.
  - exists []. repeat split. intros r Hr. now apply elem_of_nil in Hr.
  - apply rbind_Ok in H as (cells & Hcells & H).
    destruct (snapshot_row_Ok ts s stock cells Hecho Hcells) as (row & Hrow & Hts & Hsym).
    destruct (IH _ _ H) as (df & Hdf & Hcol & Hall).
    exists (row :: df). cbn [snapshot]. rewrite Hrow, Hdf. cbn.
    split; [reflexivity |]. split; [now rewrite Hsym, Hcol |].
    intros r Hr. apply elem_of_cons in Hr as [-> | Hr]; auto.
Qed.

(** A cycle that completes has appended one snapshot, stamped with the
    reading of the clock, and replaced the file by the whole accumulator. *)
Lemma cycle_completed (symbols : list string) (output : option string) (path : string)
    (df_list : list (list csv_row)) (w : world) :
  output_given output = Some path ->
  let run := cycle symbols output df_list w in
  match fst run with
  | Ok df_list' =>
      exists df,
        df_list' = df_list ++ [df] /\
        files (snd run) !! path = Some (concat (df_list ++ [df])) /\
        clock_reads (snd run) = S (clock_reads w) /\
        requests (snd run) = requests w ++ symbols /\
        row_symbol <$> df = PStr <$> symbols /\
        (forall r, r ∈ df -> timestamp r = now e (clock_reads w))
  | Raised _ => True
  end.
Proof.
  intros Hout. cbv zeta.
  unfold Client.cycle, with_client, try_finally, bind, modify.
  rewrite (get_multiple_stocks_served HTTPException_str provider e) by exact e_served.
  cbn [requests set_timeline].
  unfold console_clear, console_print, modify, lift.
  fold create_stock_table.
  destruct (create_stock_table _) as [table|ex] eqn:Htable; cbn -[append concat];
    [| exact I].
  destruct (markup e _); cbn -[append concat]; [| exact I].
  rewrite Hout.
  destruct (snapshot_Ok (now e (clock_reads w)) symbols
              (bodies_at (length (requests w)) symbols)
              (batch_bodies_echo _ _ _ _) _ _ Htable) as (df & Hdf & Hcol & Hts).
  unfold datetime_now, to_csv, ret.
  cbn -[append concat]. rewrite Hdf. cbn -[append concat].
  destruct (disk e _ _) as [|[partial|]]; cbn -[append concat]; try exact I.
  destruct (markup e _); cbn -[append concat]; [| exact I].
  exists df. rewrite lookup_insert_eq. auto 7.
Qed.

(** A loop all of whose cycles complete: as many sleeps as cycles. *)
Lemma watch_loop_completed (symbols : list string) (interval : Z)
    (output : option string) (path : string) (cycles : nat)
    (df_list : list (list csv_row)) (w : world) :
  output_given output = Some path ->
  let w' := snd (watch_loop cycles symbols interval output df_list w) in
  length (sleeps w') = (length (sleeps w) + cycles)%nat ->
  exists snaps,
    length snaps = cycles /\
    (cycles <> 0%nat -> files w' !! path = Some (concat (df_list ++ snaps))) /\
    (forall c df, snaps !! c = Some df ->
       row_symbol <$> df = PStr <$> symbols /\
       forall r, r ∈ df -> timestamp r = now e (clock_reads w + c)).
Proof.
  intros Hout. revert df_list w.
  induction cycles as [|cycles IH]; intros df_list w; cbv zeta.
  - intros _. exists []. split; [reflexivity |]. split; [congruence |].
    intros c df Hc. now rewrite lookup_nil in Hc.
  - rewrite watch_loop_step.
    pose proof (cycle_completed symbols output path df_list w Hout) as Hdone.
    pose proof (cycle_frame float_grouped_repr e symbols output df_list w)
      as (Htl & _ & _).
    cbv zeta in Hdone, Htl.
    destruct (Client.cycle float_grouped_repr e symbols output df_list w)
      as [[df_list'|ex] w1]; cbn [fst snd] in *.
    2:{ intros Hlen. apply sleeps_timeline in Htl. rewrite Htl in Hlen.
        cbn in Hlen. rewrite app_nil_r in Hlen. lia. }
    destruct Hdone as (df & -> & Hfile & Hclock & Hreq & Hcol & Hts).
    set (w2 := set_timeline (timeline w1 ++ [Slept interval]) w1).
    assert (Hsl : sleeps w2 = sleeps w ++ [interval]).
    { apply (sleeps_timeline w w2 [SessionOpened; SessionClosed; Slept interval]).
      cbn [timeline set_timeline w2]. rewrite Htl, <- app_assoc. reflexivity. }
    intros Hlen.
    destruct (IH (df_list ++ [df]) w2) as (snaps & Hn & Hfiles & Hsnaps).
    { rewrite Hsl, length_app. cbn [length]. lia. }
    exists (df :: snaps). split; [cbn; now rewrite Hn |]. split.
    + intros _. destruct cycles as [|cycles].
      * destruct snaps; [| discriminate]. cbn [Client.watch_loop raise snd].
        cbn [files set_timeline w2]. exact Hfile.
      * rewrite Hfiles by discriminate. now rewrite <- app_assoc.
    + intros [|c] df' Hc; cbn in Hc.
      * injection Hc as <-. rewrite Nat.add_0_r. auto.
      * destruct (Hsnaps c df' Hc) as [Hcol' Hts']. split; [exact Hcol' |].
        intros r Hr. rewrite (Hts' r Hr). cbn [clock_reads set_timeline w2].
        rewrite Hclock. f_equal. lia.
Qed.


End CsvExport.

(** ** Instances *)

Lemma fan_out_keeps_request_order_witness :
  exists table,
    create_stock_table (fun _ => "")
      (batch_bodies Server.starlette_str demo_provider 0 ["X"; "Y"]) = Ok table /\
    hd "" <$> rows table = ["X"; "Y"].
Proof.
  destruct (fan_out_keeps_request_order (fun _ => "") Server.starlette_str demo_provider
              (now demo_env) (completion demo_env) ["X"; "Y"] fresh_world)
    as (_ & _ & _ & _ & _ & H).
  eexists. split; [vm_compute; reflexivity |].
  apply H. vm_compute. reflexivity.
Defined.








End ClientFacts.

(** * Further properties of the service *)

Module ServerExtras.
Import Server ServerSpec ServerFacts ClientSpec ExtraSpec.

(** X1. Whatever dict the provider returns, the normalized quote has
    exactly the six keys of the service; a field the provider omits is
    [None], and the currency is [CAD] only when the provider has no
    [currency] key at all: a currency that is present, even as [None], is
    passed on. *)
Theorem normalized_quote_has_six_keys (d : gmap string pyval) :
  exists q,
    normalized_quote (PDict d) = Ok q /\
    dom q = quote_keys /\
    q !! "current_price" = Some (default PNone (d !! "currentPrice")) /\
    q !! "volume" = Some (default PNone (d !! "volume")) /\
    q !! "market_cap" = Some (default PNone (d !! "marketCap")) /\
    q !! "fifty_day_average" = Some (default PNone (d !! "fiftyDayAverage")) /\
    q !! "name" = Some (default PNone (d !! "longName")) /\
    q !! "currency" = Some (default (PStr "CAD") (d !! "currency")).
Proof.
  eexists. split; [reflexivity |]. split.
  - rewrite !dom_insert_L, dom_empty_L. unfold quote_keys. set_solver.
  - unfold dict_get, dict_get_default.
    repeat split;
      repeat (rewrite lookup_insert_ne by discriminate);
      rewrite lookup_insert_eq; destruct (d !! _); reflexivity.
Qed.

(** X2. Suffixing is idempotent: the symbol sent to the provider always
    ends with [.TO], and suffixing it again changes nothing. *)
Theorem provider_symbol_idempotent (symbol : string) :
  endswith (provider_symbol symbol) ".TO" = true /\
  provider_symbol (provider_symbol symbol) = provider_symbol symbol.
Proof.
  assert (H : endswith (provider_symbol symbol) ".TO" = true).
  { unfold provider_symbol. destruct (endswith symbol ".TO") eqn:E; simpl; [exact E |].
    apply endswith_spec. now exists symbol. }
  split; [exact H |]. unfold provider_symbol at 1. now rewrite H.
Qed.

Section Replies.

Variable HTTPException_str : Z -> string -> string.


(** X4. The handler keeps no state between requests: run after any
    earlier requests, it gives the result of a first request, and its
    lookups and log lines are appended to the earlier ones. *)
Theorem handler_is_stateless (Ticker_info : string -> result string pyval)
    (S : string) (st : effects) :
  let first := get_stock_info HTTPException_str Ticker_info S no_effects in
  get_stock_info HTTPException_str Ticker_info S st =
    (fst first,
     {| lookups := lookups st ++ lookups (snd first);
        log := log st ++ log (snd first) |}).
Proof.
  cbv zeta. unfold Server.get_stock_info, try_except, bind, ret.
  destruct (lookup_failure_cases (Ticker_info (provider_symbol S))) as [[d Hd]|[cause Hc]].
  - destruct (get_stock_data_ok HTTPException_str Ticker_info S no_effects d Hd)
      as (q & Hq & ->).
    destruct (get_stock_data_ok HTTPException_str Ticker_info S st d Hd)
      as (q' & Hq' & ->).
    rewrite Hq in Hq'. injection Hq' as <-. cbn. now rewrite app_nil_r.
  - rewrite !(get_stock_data_fails HTTPException_str Ticker_info S _ cause Hc).
    cbn. rewrite <- app_assoc. reflexivity.
Qed.

(** X5. The reply depends on the provider through one lookup only: two
    providers that agree on the suffixed symbol give the same result, the
    same lookups and the same log. *)
Theorem reply_depends_on_one_lookup (T1 T2 : string -> result string pyval)
    (S : string) (st : effects) :
  T1 (provider_symbol S) = T2 (provider_symbol S) ->
  get_stock_info HTTPException_str T1 S st = get_stock_info HTTPException_str T2 S st.
Proof.
  intros H.
  unfold Server.get_stock_info, Server.get_stock_data, try_except, bind, query_provider, lift.
  now rewrite H.
Qed.

End Replies.

Lemma reply_depends_on_one_lookup_witness :
  get_stock_info starlette_str steady_provider "SHOP" no_effects =
  get_stock_info starlette_str shop_provider "SHOP" no_effects.
Proof.
  apply (reply_depends_on_one_lookup starlette_str steady_provider shop_provider "SHOP").
  reflexivity.
Defined.

End ServerExtras.

(** * Further properties of the client *)

Module ClientExtras.
Import Client ClientSpec ClientFacts ServerSpec ExtraSpec.

(** ** Replies, as the client reads them *)

Lemma served_reply_ok (HTTPException_str : Z -> string -> string)
    (Ticker_info : string -> result string pyval) (S : string) (d : gmap string pyval) :
  Ticker_info (Server.provider_symbol S) = Ok (PDict d) ->
  exists q, Server.normalized_quote (PDict d) = Ok q /\
    snd (Server.post_stock HTTPException_str Ticker_info S) = quote_body S q.
Proof.
  intros Hd. unfold Server.post_stock, Server.get_stock_info, try_except, bind, ret.
  destruct (ServerFacts.get_stock_data_ok HTTPException_str Ticker_info S
              Server.no_effects d Hd) as (q & Hq & ->).
  exists q. split; [exact Hq | reflexivity].
Qed.

Lemma served_reply_fails (HTTPException_str : Z -> string -> string)
    (Ticker_info : string -> result string pyval) (S cause : string) :
  lookup_failure (Ticker_info (Server.provider_symbol S)) = Some cause ->
  exists detail,
    snd (Server.post_stock HTTPException_str Ticker_info S) = error_body detail.
Proof.
  intros Hc. unfold Server.post_stock, Server.get_stock_info, try_except, bind, ret.
  rewrite (ServerFacts.get_stock_data_fails HTTPException_str Ticker_info S
             Server.no_effects cause Hc).
  eexists. reflexivity.
Qed.

Lemma normalized_fields (d q : gmap string pyval) :
  Server.normalized_quote (PDict d) = Ok q ->
  dict_get q "current_price" = dict_get d "currentPrice" /\
  dict_get q "volume" = dict_get d "volume" /\
  dict_get q "market_cap" = dict_get d "marketCap" /\
  dict_get q "fifty_day_average" = dict_get d "fiftyDayAverage" /\
  q !! "current_price" = Some (dict_get d "currentPrice") /\
  q !! "fifty_day_average" = Some (dict_get d "fiftyDayAverage").
Proof.
  intros [= <-]. unfold dict_get at 1 3 5 7.
  repeat split;
    repeat (rewrite lookup_insert_ne by discriminate);
    rewrite lookup_insert_eq; reflexivity.
Qed.

Lemma quote_body_symbol (S : string) (q : gmap string pyval) :
  subscript (quote_body S q) "symbol" = Ok (PStr S).
Proof. unfold quote_body. simpl. now rewrite lookup_insert_eq. Qed.

Lemma quote_body_data (S : string) (q : gmap string pyval) :
  subscript (quote_body S q) "data" = Ok (PDict q).
Proof.
  unfold quote_body. simpl.
  rewrite lookup_insert_ne by discriminate. now rewrite lookup_insert_eq.
Qed.

Lemma error_body_symbol (detail : string) :
  subscript (error_body detail) "symbol" = Raised (KeyError "symbol").
Proof. reflexivity. Qed.

Lemma error_body_data (detail : string) :
  subscript (error_body detail) "data" = Raised (KeyError "data").
Proof. reflexivity. Qed.

(** ** Cells *)

(** X6. [format_currency] reads [N/A] exactly for the falsy values ([None],
    zero, [False], the empty string, the empty dict). It raises exactly for
    the truthy values that are not numbers (a non-empty string or dict) and
    for the integers too large for a float, and then with [ValueError],
    [TypeError] or [OverflowError]; every other value, an infinity or a NaN
    included, is printed. *)
Theorem format_currency_outcomes (v : pyval) :
  (format_currency v = Ok "N/A" <-> truthy v = false) /\
  ((exists ex, format_currency v = Raised ex) <->
   truthy v = true /\ (is_numeric v = false \/ in_float_range v = false)) /\
  (forall ex, format_currency v = Raised ex ->
     ex = ValueError \/ ex = TypeError \/ ex = OverflowError).
Proof.
  split; [| split].
  - split; [| apply format_currency_falsy].
    unfold format_currency. destruct (truthy v); [| reflexivity].
    destruct (format_grouped_2f v); cbn; intros H; discriminate H.
  - split.
    + intros [ex H].
      apply format_currency_raises in H
        as [Ht [[[s ->] _] | [[[d ->] _] | [(z & -> & Hz) _]]]]; split; auto.
    + intros [Ht [Hn | Hr]].
      * destruct v; try discriminate; unfold format_currency; rewrite Ht; cbn; eauto.
      * destruct v as [| |z| | |]; try discriminate.
        rewrite format_currency_int
          by (cbn in Ht; now apply negb_true_iff, Z.eqb_neq in Ht).
        cbn in Hr. unfold float_of_int. rewrite Hr. cbn. eauto.
  - intros ex H.
    apply format_currency_raises in H as [_ [[_ ->] | [[_ ->] | [_ ->]]]]; auto.
Qed.

Lemma format_currency_outcomes_witness :
  format_currency (PStr "") = Ok "N/A" /\
  (exists ex, format_currency (PStr "n/a") = Raised ex) /\
  (exists ex, format_currency (PInt (10 ^ 309)) = Raised ex).
Proof.
  split; [| split].
  - apply (format_currency_outcomes (PStr "")). reflexivity.
  - apply (format_currency_outcomes (PStr "n/a")). split; [reflexivity | left; reflexivity].
  - apply (format_currency_outcomes (PInt (10 ^ 309))).
    split; [reflexivity | right; vm_compute; reflexivity].
Defined.


(** ** Tables *)

Section TableShape.

Variable float_grouped_repr : spec_float -> string.

Local Abbreviation stock_row := (stock_row float_grouped_repr).
Local Abbreviation add_stock_rows := (add_stock_rows float_grouped_repr).
Local Abbreviation create_stock_table := (create_stock_table float_grouped_repr).

Lemma stock_row_five_cells (stock : pyval) (cells : list string) :
  stock_row stock = Ok cells -> length cells = 5%nat.
Proof.
  unfold Client.stock_row. intros H.
  repeat (apply rbind_Ok in H as (? & _ & H)).
  injection H as <-. reflexivity.
Qed.

Lemma add_stock_rows_shape (data : list pyval) (t t' : Table) :
  add_stock_rows t data = Ok t' ->
  header_style t' = header_style t /\ columns t' = columns t /\
  exists new, rows t' = rows t ++ new /\ length new = length data /\
    Forall (fun cells => length cells = 5%nat) new.
Proof.
  revert t. induction data as [|stock data IH]; intros t H; simpl in H.
  - injection H as <-. repeat split. exists []. now rewrite app_nil_r.
  - apply rbind_Ok in H as (cells & Hcells & H).
    destruct (IH _ H) as (Hh & Hc & new & Hrows & Hlen & Hall).
    split; [exact Hh |]. split; [exact Hc |].
    exists (cells :: new). cbn [rows add_row] in Hrows.
    rewrite Hrows, <- app_assoc. split; [reflexivity |].
    split; [cbn; now rewrite Hlen |].
    constructor; [now apply stock_row_five_cells in Hcells | exact Hall].
Qed.

Lemma add_stock_rows_aborts (good : list pyval) (bad : pyval) (rest : list pyval)
    (ex : exn) (t : Table) :
  Forall (fun stock => exists cells, stock_row stock = Ok cells) good ->
  stock_row bad = Raised ex ->
  add_stock_rows t (good ++ bad :: rest) = Raised ex.
Proof.
  intros Hgood Hbad. revert t.
  induction Hgood as [|stock good [cells Hcells] _ IH]; intros t; cbn.
  - now rewrite Hbad.
  - rewrite Hcells. cbn. apply IH.
Qed.

(** X7. A stock table that renders has the five fixed columns and one row
    per stock of the data, each of five cells; for no data it has no
    rows. *)
Theorem stock_table_shape (data : list pyval) (table : Table) :
  create_stock_table data = Ok table ->
  header_style table = "bold magenta" /\
  columns table = ["Symbol"; "Current Price"; "Volume"; "Market Cap"; "50 Day Avg"] /\
  length (rows table) = length data /\
  Forall (fun cells => length cells = length (columns table)) (rows table).
Proof.
  intros H. apply add_stock_rows_shape in H as (Hh & Hc & new & Hrows & Hlen & Hall).
  cbn in Hh, Hc, Hrows. subst new. rewrite Hc. auto.
Qed.

(** X8. The table is all or nothing: the first stock whose row cannot be
    made aborts [create_stock_table] with its exception, whatever the
    stocks before and after it. *)
Theorem first_bad_stock_aborts_table (good : list pyval) (bad : pyval)
    (rest : list pyval) (ex : exn) :
  Forall (fun stock => exists cells, stock_row stock = Ok cells) good ->
  stock_row bad = Raised ex ->
  create_stock_table (good ++ bad :: rest) = Raised ex.
Proof. intros Hgood Hbad. now apply add_stock_rows_aborts. Qed.

End TableShape.

Lemma stock_table_shape_witness :
  exists table,
    create_stock_table (fun _ => "")
      (batch_bodies Server.starlette_str demo_provider 0 ["X"; "Y"]) = Ok table /\
    length (rows table) = 2%nat.
Proof.
  eexists. split; [vm_compute; reflexivity |].
  apply (stock_table_shape (fun _ => "")
           (batch_bodies Server.starlette_str demo_provider 0 ["X"; "Y"])).
  vm_compute. reflexivity.
Defined.

Lemma first_bad_stock_aborts_table_witness :
  create_stock_table (fun _ => "")
    (batch_bodies Server.starlette_str demo_provider 0 ["X"] ++
     error_body "unknown symbol" ::
     batch_bodies Server.starlette_str demo_provider 0 ["Y"]) =
  Raised (KeyError "symbol").
Proof.
  apply (first_bad_stock_aborts_table (fun _ => "")).
  - repeat constructor. eexists. vm_compute. reflexivity.
  - reflexivity.
Defined.

(** ** The join *)

Section GatherFailure.

Context {A : Type}.

Lemma gather_run_raised (outcomes : list (result exn A)) (order : list nat)
    (slots : list (option A)) (ex : exn) :
  gather_run outcomes order slots = Raised ex ->
  exists i, i ∈ order /\ outcomes !! i = Some (Raised ex).
Proof.
  revert slots. induction order as [|j order IH]; intros slots H; simpl in H.
  - discriminate.
  - destruct (outcomes !! j) as [[a|ex']|] eqn:Hj.
    + destruct (IH _ H) as (i & Hi & Ho). exists i. split; [now right | exact Ho].
    + injection H as ->. exists j. split; [now left | exact Hj].
    + destruct (IH _ H) as (i & Hi & Ho). exists i. split; [now right | exact Ho].
Qed.

Lemma gather_run_Ok (outcomes : list (result exn A)) (order : list nat)
    (slots slots' : list (option A)) (i : nat) (ex : exn) :
  gather_run outcomes order slots = Ok slots' -> i ∈ order ->
  outcomes !! i <> Some (Raised ex).
Proof.
  revert slots. induction order as [|j order IH]; intros slots H Hi; simpl in H.
  - now apply elem_of_nil in Hi.
  - apply elem_of_cons in Hi as [-> | Hi].
    + destruct (outcomes !! j) as [[a|ex']|]; congruence.
    + destruct (outcomes !! j) as [[a|ex']|]; try discriminate; eauto.
Qed.

Lemma gather_run_fails (outcomes : list (result exn A)) (order : list nat)
    (i : nat) (ex : exn) :
  outcomes !! i = Some (Raised ex) ->
  (exists ex', gather outcomes order = Raised ex') /\
  (forall ex', gather outcomes order = Raised ex' ->
     exists j, outcomes !! j = Some (Raised ex')).
Proof.
  intros Hi. unfold gather.
  destruct (gather_run outcomes (order ++ seq 0 (length outcomes))
              (replicate (length outcomes) None)) as [slots|ex'] eqn:Hrun.
  - exfalso. apply (gather_run_Ok _ _ _ _ i ex Hrun); [| exact Hi].
    rewrite elem_of_app, elem_of_seq. right.
    apply lookup_lt_Some in Hi. lia.
  - split; [now exists ex' |]. cbn. intros ex'' [= <-].
    apply gather_run_raised in Hrun as (j & _ & Hj). now exists j.
Qed.

(** X9. The join has no partial results: if any request of the batch
    fails, [gather] raises, and what it raises is the failure of one of the
    requests, whatever the completion order; it is the failure of the
    request that completes first when that one fails. *)
Theorem gather_fails_with_a_failure (outcomes : list (result exn A))
    (order : list nat) (i : nat) (ex : exn) :
  outcomes !! i = Some (Raised ex) ->
  (exists j ex', outcomes !! j = Some (Raised ex') /\ gather outcomes order = Raised ex') /\
  gather outcomes (i :: order) = Raised ex.
Proof.
  intros Hi. split.
  - destruct (gather_run_fails outcomes order i ex Hi) as [[ex' Hex'] Hfrom].
    destruct (Hfrom ex' Hex') as [j Hj]. exists j, ex'. auto.
  - unfold gather. cbn. now rewrite Hi.
Qed.

End GatherFailure.

Lemma gather_fails_with_a_failure_witness :
  gather [Ok 1%nat; Raised (ClientError "timeout"); Raised TypeError] [2; 0]%nat
  = Raised TypeError.
Proof.
  apply (gather_fails_with_a_failure
           [Ok 1%nat; Raised (ClientError "timeout"); Raised TypeError] [0]%nat 2%nat).
  reflexivity.
Defined.

(** ** End to end: provider fields on the screen and in the export *)

Section EndToEnd.

Variable float_grouped_repr : spec_float -> string.
Variable HTTPException_str : Z -> string -> string.
Variable Ticker_info : string -> result string pyval.

Local Abbreviation reply S := (snd (Server.post_stock HTTPException_str Ticker_info S)).




End EndToEnd.




(** ** Runs of [watch] and [analyze] in any environment *)

Section AnyRun.

Variable float_grouped_repr : spec_float -> string.
Variable e : env.

Local Abbreviation cycle := (cycle float_grouped_repr e).
Local Abbreviation watch_loop := (watch_loop float_grouped_repr e).
Local Abbreviation watch_stocks := (watch_stocks float_grouped_repr e).

(** What a cycle does to the files and to the clock. *)
Lemma cycle_files (symbols : list string) (output : option string)
    (df_list : list (list csv_row)) (w : world) :
  let run := cycle symbols output df_list w in
  (forall p, output_given output <> Some p -> files (snd run) !! p = files w !! p) /\
  (output_given output = None -> clock_reads (snd run) = clock_reads w).
Proof.
  unfold Client.cycle, with_client, try_finally, bind, modify, get_multiple_stocks,
    console_clear, console_print, lift, datetime_now, to_csv, ret.
  cbn [fst snd].
  destruct (gather _ _) as [stock_data|ex0]; cbn; [| auto].
  destruct (create_stock_table _ _) as [table|ex0]; cbn; [| auto].
  destruct (markup e _); cbn; [| auto].
  destruct (output_given output) as [path|]; cbn; [| auto].
  destruct (snapshot _ _) as [df|ex0]; cbn; [| split; [reflexivity | discriminate]].
  destruct (disk e _ _) as [|[partial|]]; cbn; try destruct (markup e _); cbn;
    (split; [| discriminate]); intros p Hp;
    try reflexivity; apply lookup_insert_ne; congruence.
Qed.

Lemma watch_loop_files (symbols : list string) (interval : Z) (output : option string)
    (cycles : nat) (df_list : list (list csv_row)) (w : world) :
  let w' := snd (watch_loop cycles symbols interval output df_list w) in
  (forall p, output_given output <> Some p -> files w' !! p = files w !! p) /\
  (output_given output = None -> clock_reads w' = clock_reads w).
Proof.
  revert df_list w. induction cycles as [|cycles IH]; intros df_list w.
  - cbn. auto.
  - cbv zeta. rewrite watch_loop_step.
    destruct (cycle_files symbols output df_list w) as (Hf & Hc).
    destruct (Client.cycle float_grouped_repr e symbols output df_list w)
      as [[df_list'|ex] w1]; cbn [snd] in *.
    + destruct (IH df_list' (set_timeline (timeline w1 ++ [Slept interval]) w1))
        as [Hf' Hc'].
      cbv zeta in Hf', Hc'. split.
      * intros p Hp. rewrite (Hf' p Hp). cbn. now apply Hf.
      * intros Hn. rewrite (Hc' Hn). cbn. now apply Hc.
    + split; assumption.
Qed.

(** X13. A watch writes to its output path and nowhere else: every other
    file is left as it was; and without an output path (none, or an empty
    one) no file is written and the clock is never read. *)
Theorem watch_writes_only_its_output (cycles : nat) (symbols : list string)
    (interval : Z) (output : option string) (w : world) :
  let w' := snd (watch_stocks cycles symbols interval output w) in
  (forall p, output_given output <> Some p -> files w' !! p = files w !! p) /\
  (output_given output = None -> files w' = files w /\ clock_reads w' = clock_reads w).
Proof.
  cbv zeta.
  destruct (watch_stocks_world float_grouped_repr e cycles symbols interval output w)
    as (-> & -> & _).
  destruct (watch_loop_files symbols interval output cycles [] w) as [Hf Hc].
  cbv zeta in Hf, Hc. split; [exact Hf |].
  intros Hn. split; [| now apply Hc].
  apply map_eq. intros p. apply Hf. rewrite Hn. discriminate.
Qed.

(** X14. What a failed cycle leaves on the disk. A cycle that fails before
    its write (the fetch, the table, its print, the snapshot) has not
    touched a file. A cycle that fails at its write raises [OSError] and
    leaves its output file as the failed write left it: as it was, or with
    what had been written by then. After a write that succeeded the cycle
    can only fail at the notice of the export, with [MarkupError], and the
    new export is in place. *)
Theorem failed_cycle_file_outcomes (symbols : list string) (output : option string)
    (df_list : list (list csv_row)) (w : world) (ex : exn) :
  let run := cycle symbols output df_list w in
  fst run = Raised ex ->
  (writes (snd run) = writes w /\ files (snd run) = files w) \/
  (exists path,
     output_given output = Some path /\ writes (snd run) = S (writes w) /\
     ((ex = OSError /\ disk e (writes w) path = WriteFailed None /\
       files (snd run) = files w) \/
      (exists partial,
         ex = OSError /\ disk e (writes w) path = WriteFailed (Some partial) /\
         files (snd run) = <[path := partial]> (files w)) \/
      (exists df,
         ex = MarkupError /\ disk e (writes w) path = WriteDone /\
         markup e (export_notice path) = false /\
         files (snd run) = <[path := concat (df_list ++ [df])]> (files w)))).
Proof.
  unfold Client.cycle, with_client, try_finally, bind, modify, get_multiple_stocks,
    console_clear, console_print, lift, datetime_now, to_csv, ret, export_notice.
  cbn [fst snd].
  destruct (gather _ _) as [stock_data|ex0]; cbn -[append concat]; [| auto].
  destruct (create_stock_table _ _) as [table|ex0]; cbn -[append concat]; [| auto].
  destruct (markup e _); cbn -[append concat]; [| auto].
  destruct (output_given output) as [path|]; cbn -[append concat]; [| discriminate].
  destruct (snapshot _ _) as [df|ex0]; cbn -[append concat]; [| auto].
  destruct (disk e _ _) as [|[partial|]] eqn:Hdisk; cbn -[append concat].
  - destruct (markup e _) eqn:Hm; cbn -[append concat]; [discriminate |].
    intros [= <-]. right. exists path. split; [reflexivity |]. split; [reflexivity |].
    right. right. exists df. auto.
  - intros [= <-]. right. exists path. split; [reflexivity |]. split; [reflexivity |].
    right. left. exists partial. auto.
  - intros [= <-]. right. exists path. split; [reflexivity |]. split; [reflexivity |].
    left. auto.
Qed.

(** X15. No request is repeated and none is skipped: a watch sends, for
    every cycle it begins, exactly one request per symbol, in the order of
    the symbols, and it begins at most the cycles it is given. *)
Theorem watch_sends_one_request_per_symbol (cycles : nat) (symbols : list string)
    (interval : Z) (output : option string) (w : world) :
  exists begun : nat,
    let w' := snd (watch_stocks cycles symbols interval output w) in
    (begun <= cycles)%nat /\
    requests w' = requests w ++ concat (replicate begun symbols) /\
    batches w' = (batches w + begun)%nat.
Proof.
  cbv zeta.
  destruct (watch_stocks_world float_grouped_repr e cycles symbols interval output w)
    as (_ & _ & -> & -> & _).
  generalize (@nil (list csv_row)) as df_list. revert w.
  induction cycles as [|cycles IH]; intros w df_list.
  - exists 0%nat. cbn. rewrite app_nil_r. auto.
  - rewrite watch_loop_step.
    pose proof (cycle_frame float_grouped_repr e symbols output df_list w)
      as (_ & Hb & Hr).
    destruct (Client.cycle float_grouped_repr e symbols output df_list w)
      as [[df_list'|ex] w1]; cbn [snd] in *.
    + destruct (IH (set_timeline (timeline w1 ++ [Slept interval]) w1) df_list')
        as (begun & Hle & Hreq & Hbat).
      exists (S begun). rewrite Hreq, Hbat. cbn [requests batches set_timeline].
      rewrite Hr, Hb. cbn [replicate concat]. rewrite <- app_assoc.
      repeat split; lia.
    + exists 1%nat. cbn. rewrite Hr, Hb, app_nil_r. repeat split; lia.
Qed.

(** X16. When the request of [analyze] does not get through, the run
    prints no heading and tries one error line, for the symbol and the
    failure. If [rich] renders that line, it is the only thing printed and
    the run ends normally; if the line is refused (the symbol or the
    message has a closing tag that matches nothing), nothing is printed
    and [MarkupError] leaves the run. In both cases the session is closed
    and no file is written. *)
Theorem analyze_reports_transport_failure (symbol : string) (days : Z) (w : world)
    (ex : exn) :
  post e (length (requests w)) symbol = Raised ex -> is_Exception ex = true ->
  let run := analyze e symbol days w in
  let line := PrintError ("Error analyzing " +:+ symbol) ex in
  (markup e line = true ->
     fst run = Ok tt /\ console (snd run) = console w ++ [line]) /\
  (markup e line = false ->
     fst run = Raised MarkupError /\ console (snd run) = console w) /\
  timeline (snd run) = timeline w ++ [SessionOpened; SessionClosed] /\
  files (snd run) = files w.
Proof.
  intros Hpost Hex. cbv zeta.
  unfold analyze, asyncio_run, analyze_stock, with_client, try_finally, try_except,
    bind, modify, get_stock_info, console_print, lift.
  cbn -[append]. rewrite Hpost, Hex. cbn -[append].
  destruct (markup e _); cbn -[append]; rewrite <- app_assoc;
    (split; [intros H; try discriminate H; auto |]);
    (split; [intros H; try discriminate H; auto |]); auto.
Qed.

End AnyRun.

Lemma watch_writes_only_its_output_witness :
  files (snd (watch_stocks (fun _ => "") demo_env 2 ["X"; "Y"] 5 (Some "out.csv")
                fresh_world)) !! "other.csv" = None.
Proof.
  rewrite (proj1 (watch_writes_only_its_output (fun _ => "") demo_env 2 ["X"; "Y"] 5
                    (Some "out.csv") fresh_world) "other.csv").
  - reflexivity.
  - discriminate.
Defined.

(** A cycle whose table cannot be made, and a cycle on a disk that
    refuses the write: no file appears. *)
Lemma failed_cycle_file_outcomes_witness :
  files (snd (cycle (fun _ => "") picky_env ["X"; "BAD"] (Some "out.csv") [] fresh_world))
  = ∅ /\
  files (snd (cycle (fun _ => "") full_disk_env ["X"; "Y"] (Some "out.csv") [] fresh_world))
  = ∅.
Proof.
  split.
  - destruct (failed_cycle_file_outcomes (fun _ => "") picky_env ["X"; "BAD"]
                (Some "out.csv") [] fresh_world (KeyError "symbol"))
      as [[_ H] | (path & _ & H & _)].
    + vm_compute. reflexivity.
    + exact H.
    + vm_compute in H. discriminate H.
  - destruct (failed_cycle_file_outcomes (fun _ => "") full_disk_env ["X"; "Y"]
                (Some "out.csv") [] fresh_world OSError)
      as [[_ H] | (path & _ & _ & [(_ & _ & H) | [(partial & _ & H & _) | (df & H & _)]])].
    + vm_compute. reflexivity.
    + exact H.
    + exact H.
    + vm_compute in H. discriminate H.
    + discriminate H.
Defined.

Lemma analyze_reports_transport_failure_witness :
  console (snd (analyze offline_env "SHOP" 30 fresh_world)) =
    [PrintError "Error analyzing SHOP" (ClientError "Cannot connect to host localhost:8000")] /\
  fst (analyze strict_offline_env "[/x]" 30 fresh_world) = Raised MarkupError.
Proof.
  split.
  - apply (analyze_reports_transport_failure offline_env "SHOP" 30 fresh_world
             (ClientError "Cannot connect to host localhost:8000")); reflexivity.
  - apply (analyze_reports_transport_failure strict_offline_env "[/x]" 30 fresh_world
             (ClientError "Cannot connect to host localhost:8000")); reflexivity.
Defined.

(** ** Failing fast *)

Lemma batch_bodies_app (HTTPException_str : Z -> string -> string)
    (provider : nat -> string -> result string pyval) (first : nat)
    (l1 l2 : list string) :
  batch_bodies HTTPException_str provider first (l1 ++ l2) =
  batch_bodies HTTPException_str provider first l1 ++
  batch_bodies HTTPException_str provider (first + length l1) l2.
Proof.
  unfold batch_bodies. rewrite imap_app. f_equal.
  apply imap_ext. intros j s _. cbn. now rewrite Nat.add_assoc.
Qed.

Lemma batch_bodies_cons (HTTPException_str : Z -> string -> string)
    (provider : nat -> string -> result string pyval) (first : nat)
    (s : string) (l : list string) :
  batch_bodies HTTPException_str provider first (s :: l) =
  snd (Server.post_stock HTTPException_str (provider first) s) ::
  batch_bodies HTTPException_str provider (S first) l.
Proof.
  unfold batch_bodies. cbn [imap]. rewrite Nat.add_0_r. f_equal.
  apply imap_ext. intros j s' _. cbn.
  replace (first + S j)%nat with (S (first + j)) by lia. reflexivity.
Qed.

Section FailFast.

Variable float_grouped_repr : spec_float -> string.

(** X17. One failed request ends a watch. If a request of the first batch
    does not get through, the run stops there: the join raises the failure
    of one of the requests, nothing is drawn (the screen is not even
    cleared), nothing is written, the loop does not sleep and sends no
    further request, and the session is closed. For a failure that is an
    [Exception] whose error line [rich] renders, that line is printed and
    the run ends normally. In general either one line is printed and the
    run ends normally, or nothing is printed and an exception leaves the
    run (the error line was refused, or the failure is no [Exception]). *)
Theorem failed_request_ends_watch (e : env) (cycles : nat) (symbols : list string)
    (interval : Z) (output : option string) (w : world) (j : nat) (s : string)
    (ex : exn) :
  symbols !! j = Some s ->
  post e (length (requests w) + j) s = Raised ex ->
  let run := watch_stocks float_grouped_repr e (S cycles) symbols interval output w in
  (exists j' s' ex',
     symbols !! j' = Some s' /\ post e (length (requests w) + j') s' = Raised ex' /\
     (is_Exception ex' = true -> markup e (PrintError "Error" ex') = true ->
        fst run = Ok tt /\
        console (snd run) = console w ++ [PrintError "Error" ex'])) /\
  (fst run = Ok tt /\
   (exists item, console (snd run) = console w ++ [item] /\ item <> Clear /\
      forall table, item <> PrintTable table)
   \/
   (exists ex', fst run = Raised ex') /\ console (snd run) = console w) /\
  files (snd run) = files w /\
  sleeps (snd run) = sleeps w /\
  requests (snd run) = requests w ++ symbols /\
  sessions (snd run) = sessions w ++ [SessionOpened; SessionClosed].
Proof.
  intros Hs Hpost.
  assert (Htask : imap (fun j symbol => post e (length (requests w) + j) symbol) symbols
                  !! j = Some (Raised ex)).
  { rewrite list_lookup_imap, Hs. cbn. now rewrite Hpost. }
  destruct (gather_run_fails _ (completion e (batches w)) j ex Htask)
    as [(ex' & Hgather) Hfrom].
  destruct (Hfrom ex' Hgather) as [j' Hj'].
  rewrite list_lookup_imap in Hj'.
  destruct (symbols !! j') as [s'|] eqn:Hs'; [| discriminate]. cbn in Hj'.
  injection Hj' as Hj'.
  cbv zeta. unfold watch_stocks, try_except. rewrite watch_loop_step.
  unfold cycle, with_client, try_finally, bind, modify, get_multiple_stocks.
  cbn [fst snd requests batches set_timeline]. rewrite Hgather.
  unfold sleeps, sessions, console_print, raise.
  split.
  { exists j', s', ex'. split; [exact Hs' |]. split; [exact Hj' |].
    intros Hex Hm. destruct ex'; try discriminate Hex;
      cbn [is_Exception]; rewrite Hm; cbn; auto. }
  destruct ex'; cbn [is_Exception]; try destruct (markup e _);
    cbn -[append]; rewrite <- ?app_assoc, ?omap_app, ?List.filter_app; cbn -[append];
    rewrite ?app_nil_r;
    (split; [first [ left; split; [reflexivity |]; eexists; split; [reflexivity |];
                     split; [discriminate | intros table; discriminate]
                   | right; split; [eexists; reflexivity | reflexivity] ] |]);
    auto.
Qed.

Variable HTTPException_str : Z -> string -> string.
Variable provider : nat -> string -> result string pyval.
Variable clock : nat -> Z.
Variable schedule : nat -> list nat.

Local Abbreviation e := (served_env HTTPException_str provider clock schedule).

(** X18. One error reply ends a watch. The client does not look at the
    status of a reply: when the lookup of a symbol fails at the service
    (and the symbols before it make their rows), the 500 body has no
    [symbol], so the table raises [KeyError] for ['symbol'] and the run
    stops after clearing the screen: the detail sent by the service is not
    shown, nothing is written, the loop does not sleep. *)
Theorem error_reply_ends_watch (cycles : nat) (before after : list string) (s : string)
    (cause : string) (interval : Z) (output : option string) (w : world) :
  Forall (fun body => exists cells, stock_row float_grouped_repr body = Ok cells)
    (batch_bodies HTTPException_str provider (length (requests w)) before) ->
  lookup_failure (provider (length (requests w) + length before)%nat
                    (Server.provider_symbol s)) = Some cause ->
  let run := watch_stocks float_grouped_repr e (S cycles) (before ++ s :: after)
               interval output w in
  fst run = Ok tt /\
  console (snd run) = console w ++ [Clear; PrintError "Error" (KeyError "symbol")] /\
  files (snd run) = files w /\
  sleeps (snd run) = sleeps w /\
  requests (snd run) = requests w ++ before ++ s :: after /\
  sessions (snd run) = sessions w ++ [SessionOpened; SessionClosed].
Proof.
  intros Hgood Hfail.
  assert (Htable : create_stock_table float_grouped_repr
            (batch_bodies HTTPException_str provider (length (requests w))
               (before ++ s :: after)) = Raised (KeyError "symbol")).
  { rewrite batch_bodies_app, batch_bodies_cons. unfold create_stock_table.
    apply add_stock_rows_aborts; [exact Hgood |].
    destruct (served_reply_fails HTTPException_str _ s cause Hfail) as [detail ->].
    reflexivity. }
  cbv zeta. unfold watch_stocks, try_except. rewrite watch_loop_step.
  unfold cycle, with_client, try_finally, bind, modify.
  rewrite (get_multiple_stocks_served HTTPException_str provider)
    by apply served_env_in_front.
  cbn [requests set_timeline].
  unfold console_clear, console_print, modify, lift. rewrite Htable.
  unfold sleeps, sessions.
  cbn -[append]. rewrite <- !app_assoc, omap_app, List.filter_app. cbn -[append].
  rewrite app_nil_r. repeat split.
Qed.

End FailFast.

Section ErrorReply.

Variable HTTPException_str : Z -> string -> string.
Variable provider : nat -> string -> result string pyval.
Variable e : env.
Hypothesis e_served : in_front_of HTTPException_str provider e.

(** X19. [analyze] does not look at the status either. When the lookup
    fails at the service and [rich] renders what is printed, the run prints
    the heading and then an error line for [KeyError] ['data'], not the
    detail sent by the service, and ends normally. When the heading is
    refused (the symbol has a closing tag that matches nothing) the reply is
    not looked at: the error line is for the [MarkupError]; and when the
    error line is refused as well, nothing more is printed and
    [MarkupError] leaves the run. In every case one request is sent and the
    session is closed. *)
Theorem analyze_reports_error_reply (symbol cause : string) (days : Z) (w : world) :
  lookup_failure (provider (length (requests w)) (Server.provider_symbol symbol))
    = Some cause ->
  let run := analyze e symbol days w in
  let line := PrintError ("Error analyzing " +:+ symbol) in
  (markup e (analysis_header symbol) = true ->
     (markup e (line (KeyError "data")) = true ->
        fst run = Ok tt /\
        console (snd run) =
          console w ++ [analysis_header symbol; line (KeyError "data")]) /\
     (markup e (line (KeyError "data")) = false ->
        fst run = Raised MarkupError /\
        console (snd run) = console w ++ [analysis_header symbol])) /\
  (markup e (analysis_header symbol) = false ->
     (markup e (line MarkupError) = true ->
        fst run = Ok tt /\ console (snd run) = console w ++ [line MarkupError]) /\
     (markup e (line MarkupError) = false ->
        fst run = Raised MarkupError /\ console (snd run) = console w)) /\
  requests (snd run) = requests w ++ [symbol] /\
  sessions (snd run) = sessions w ++ [SessionOpened; SessionClosed].
Proof.
  intros Hfail. cbv zeta.
  destruct (served_reply_fails HTTPException_str _ symbol cause Hfail) as [detail Hbody].
  assert (Htable : analysis_table (error_body detail) = Raised (KeyError "data"))
    by (unfold analysis_table; now rewrite error_body_data).
  split; [| split; [| split]].
  3:{ unfold analyze. rewrite asyncio_run_world.
      now destruct (analyze_stock_frame e symbol w) as (_ & H & _). }
  3:{ unfold analyze. rewrite asyncio_run_world.
      destruct (analyze_stock_frame e symbol w) as (H & _).
      apply sessions_timeline in H. exact H. }
  all: intros Hh; unfold analyze, asyncio_run, analyze_stock, with_client, try_finally,
         try_except, bind, modify, get_stock_info, console_print, lift, analysis_header in *;
       cbn -[append]; rewrite e_served; unfold served; rewrite Hbody;
       cbn -[append]; rewrite Hh; cbn -[append]; rewrite ?Htable; cbn -[append];
       split; intros Hl; rewrite Hl; cbn -[append]; rewrite <- ?app_assoc; auto.
Qed.

End ErrorReply.

Lemma failed_request_ends_watch_witness :
  sleeps (snd (watch_stocks (fun _ => "") offline_env 3 ["X"; "Y"] 60 None fresh_world)) = [].
Proof.
  apply (failed_request_ends_watch (fun _ => "") offline_env 2 ["X"; "Y"] 60 None
           fresh_world 1 "Y" (ClientError "Cannot connect to host localhost:8000"));
    reflexivity.
Defined.

Lemma error_reply_ends_watch_witness :
  console (snd (watch_stocks (fun _ => "") picky_env 3 ["X"; "BAD"; "Y"] 60 None
                  fresh_world)) =
    [Clear; PrintError "Error" (KeyError "symbol")].
Proof.
  apply (error_reply_ends_watch (fun _ => "") Server.starlette_str picky_provider
           (now picky_env) (completion picky_env) 2 ["X"] ["Y"] "BAD"
           "No data found, symbol may be delisted" 60 None fresh_world).
  - repeat constructor. eexists. vm_compute. reflexivity.
  - reflexivity.
Defined.

Lemma analyze_reports_error_reply_witness :
  console (snd (analyze picky_env "BAD" 30 fresh_world)) =
    [analysis_header "BAD"; PrintError "Error analyzing BAD" (KeyError "data")] /\
  fst (analyze strict_env "[/x]" 30 fresh_world) = Raised MarkupError /\
  console (snd (analyze strict_env "[/x]" 30 fresh_world)) = [].
Proof.
  split.
  - apply (analyze_reports_error_reply Server.starlette_str picky_provider picky_env
             (fun i symbol => eq_refl) "BAD"
             "No data found, symbol may be delisted" 30 fresh_world);
      reflexivity.
  - apply (analyze_reports_error_reply Server.starlette_str
             (fun _ => broken_provider) strict_env
             (fun i symbol => eq_refl) "[/x]"
             "Expecting value: line 1 column 1 (char 0)" 30 fresh_world);
      reflexivity.
Defined.

(** ** Edges of the derived row *)

Lemma b64_100_finite : exists m e, b64_of_Z 100 = S754_finite false m e.
Proof. eexists _, _. vm_compute. reflexivity. Qed.

(** A zero deviation reads as the down mark and [0.00]. *)
Lemma derived_row_zero (s : bool) :
  derived_row (b64_mul (S754_zero s) (b64_of_Z 100)) =
    ["Price vs 50-day Average"; trend_down +:+ " 0.00%"].
Proof.
  destruct b64_100_finite as (m & e & ->). destruct s; reflexivity.
Qed.

Lemma b64_sub_diag (f : spec_float) :
  is_finite f = true -> exists s, b64_sub f f = S754_zero s.
Proof.
  destruct f as [[|]|[|]| |s m e]; try discriminate; intros _;
    try (eexists; reflexivity).
  exists false. unfold b64_sub, SFsub. cbv zeta. now rewrite Z.sub_diag.
Qed.

Lemma b64_div_zero (s : bool) (f : spec_float) :
  is_finite f = true -> is_zero f = false ->
  exists s', b64_div (S754_zero s) f = S754_zero s'.
Proof.
  destruct f as [[|]|[|]| |s1 m e]; try discriminate; intros _ _.
  eexists. reflexivity.
Qed.

(** X20. A price equal to its average counts as not above it: for any
    finite number other than zero as both price and average, the derived
    row shows the down mark and [0.00%]. (An infinity or a NaN against
    itself gives a NaN: the row reads [nan%].) *)
Theorem equal_price_reads_down (v : pyval) :
  is_number v = true -> truthy v = true -> is_finite_value v = true ->
  derived_rows v v = Ok [["Price vs 50-day Average"; trend_down +:+ " 0.00%"]].
Proof.
  intros Hn Ht Hfin. destruct v as [| |z|f| |]; try discriminate.
  - rewrite derived_rows_ints by now rewrite Ht.
    unfold percent_deviation_int. rewrite Z.sub_diag.
    change (SF_of_Z 0) with (S754_zero false).
    cbn in Ht. apply negb_true_iff, Z.eqb_neq in Ht.
    destruct (b64_div_zero false (SF_of_Z z)) as [s' ->].
    { destruct z; [contradiction | |]; reflexivity. }
    { destruct z; [contradiction | |]; reflexivity. }
    cbn [is_finite]. now rewrite derived_row_zero.
  - rewrite derived_rows_floats by now rewrite Ht.
    unfold percent_deviation. cbn in Ht, Hfin. apply negb_true_iff in Ht.
    destruct (b64_sub_diag f Hfin) as [s ->].
    destruct (b64_div_zero s f Hfin Ht) as [s' ->].
    now rewrite derived_row_zero.
Qed.

Lemma py_sub_numeric (a b d : pyval) : py_sub a b = Ok d -> is_numeric d = true.
Proof.
  unfold py_sub. intros H.
  destruct (int_value a), (int_value b); try (injection H as <-; reflexivity);
    (destruct (is_numeric a && is_numeric b); [| discriminate]);
    apply rbind_Ok in H as (fa & _ & H); apply rbind_Ok in H as (fb & _ & H);
    injection H as <-; reflexivity.
Qed.

Lemma py_sub_not_numbers (a b : pyval) :
  is_numeric a && is_numeric b = false -> py_sub a b = Raised TypeError.
Proof.
  unfold py_sub. intros Hn.
  destruct (int_value a) eqn:Ha, (int_value b) eqn:Hb; rewrite ?Hn; try reflexivity.
  destruct a, b; discriminate.
Qed.

Lemma py_truediv_numbers_raise (a b : pyval) (ex : exn) :
  truthy b = true -> is_numeric a && is_numeric b = true ->
  py_truediv a b = Raised ex -> ex = OverflowError.
Proof.
  intros Ht Hn. unfold py_truediv. intros H.
  destruct (int_value a) as [x|] eqn:Ha, (int_value b) as [y|] eqn:Hb.
  { rewrite (truthy_int_nonzero b y Ht Hb) in H.
    destruct (is_finite _); [discriminate | now injection H as <-]. }
  all: apply float_operands_raise in H
         as [[Hn' _] | [_ [[-> _] | (fa & fb & _ & _ & H)]]];
       [congruence | reflexivity |];
       rewrite (truthy_not_zero b Ht) in H; discriminate.
Qed.

(** X21. The derived row fails on data it cannot subtract or divide, and
    on nothing else: [derived_rows] raises [TypeError] if and only if both
    values are truthy and one of them is not a number (a non-empty string
    or dict); between numbers the only failure is [OverflowError], for an
    integer, or a quotient of integers, too large for a float; two floats
    never fail. *)
Theorem derived_rows_fail_on_non_numbers (cp avg : pyval) :
  (derived_rows cp avg = Raised TypeError <->
   truthy cp && truthy avg = true /\ is_numeric cp && is_numeric avg = false) /\
  (forall ex, derived_rows cp avg = Raised ex -> ex = TypeError \/ ex = OverflowError) /\
  (is_numeric cp && is_numeric avg = true ->
   forall ex, derived_rows cp avg = Raised ex -> ex = OverflowError) /\
  (forall x y, cp = PFloat x -> avg = PFloat y ->
     exists derived, derived_rows cp avg = Ok derived).
Proof.
  assert (Hnum : is_numeric cp && is_numeric avg = true ->
                 forall ex, derived_rows cp avg = Raised ex -> ex = OverflowError).
  { intros Hn ex H.
    pose proof (derived_rows_raises cp avg ex H) as [Ht _].
    unfold derived_rows in H. rewrite Ht in H. apply andb_prop in Ht as [_ Ht].
    apply rbind_raised in H as [H | (diff & Hd & H)].
    - apply py_sub_raises in H as [[Hn' _] | (_ & -> & _)]; [congruence | reflexivity].
    - apply rbind_raised in H as [H | (ratio & _ & H)]; [| discriminate].
      apply py_sub_numeric in Hd. apply andb_prop in Hn as [_ Hn].
      apply (py_truediv_numbers_raise diff avg ex Ht); [now rewrite Hd, Hn | exact H]. }
  split; [| split; [| split]].
  - split.
    + intros H. pose proof (derived_rows_raises cp avg _ H) as [Ht _].
      split; [exact Ht |].
      destruct (is_numeric cp && is_numeric avg) eqn:Hn; [| reflexivity].
      discriminate (Hnum eq_refl _ H).
    + intros [Ht Hn]. unfold derived_rows. rewrite Ht.
      now rewrite py_sub_not_numbers.
  - intros ex H. now apply derived_rows_raises in H as [_ H].
  - exact Hnum.
  - intros x y -> ->. destruct (derived_rows (PFloat x) (PFloat y)) as [rows|ex] eqn:H;
      [eauto |].
    pose proof (derived_rows_raises _ _ _ H) as [Ht _].
    rewrite derived_rows_floats in H by exact Ht. discriminate.
Qed.

Lemma equal_price_reads_down_witness :
  derived_rows (PFloat (b64_of_Q (25 # 2))) (PFloat (b64_of_Q (25 # 2))) =
    Ok [["Price vs 50-day Average"; trend_down +:+ " 0.00%"]].
Proof.
  apply (equal_price_reads_down (PFloat (b64_of_Q (25 # 2)))); vm_compute; reflexivity.
Defined.

Lemma derived_rows_fail_on_non_numbers_witness :
  derived_rows (PStr "110") (PInt 100) = Raised TypeError /\
  (forall ex, derived_rows (PInt (10 ^ 400 - 1)) (PInt 1) = Raised ex ->
     ex = OverflowError).
Proof.
  split.
  - apply (derived_rows_fail_on_non_numbers (PStr "110") (PInt 100)).
    split; reflexivity.
  - apply (derived_rows_fail_on_non_numbers (PInt (10 ^ 400 - 1)) (PInt 1)).
    reflexivity.
Defined.

End ClientExtras.
